(** * SelfHostGameAccel: the control-plane server ([server/protocol])

    A shallow embedding of the HTTP control plane of the VPN-room server
    (server.go and storage.go of package [protocol]) and the properties its
    specification states about registration, login, token refresh, room
    creation, room join and persistence.

    Go maps are finite maps ([gmap]).  The four maps of [Server] and the
    three of [persistentState] are never nil where the server reads or
    writes them ([NewServerWithStorage] and [loadState] make them), so for
    them nil and empty are one value.  A room of the room map is a pointer
    that may be nil, and the member map of a room may be nil: a state file
    can hold both ([null], or a room without its [Members]), and Go panics
    where the code goes through the one or writes to the other.  The mutex
    of [Server] serialises the handlers, so a handler is one atomic step on
    the server state.  What a handler takes from its surroundings (random
    bytes, the file system and its failures) is the [World] it runs in. *)

From Stdlib Require Import ZArith Ascii String List Lia DecimalString DecimalZ DecimalPos.
From stdpp Require Import base option gmap strings list.

Set Warnings "-clear-no-such-hyp".

Local Open Scope string_scope.
Local Open Scope Z_scope.

(** ** The Go library functions the server calls *)

Module Go.

Definition byte (n : N) : ascii := ascii_of_N n.

Definition byteIn (c : ascii) (l : list N) : bool :=
  existsb (N.eqb (N_of_ascii c)) l.

(** [unicode.IsSpace] on one-byte runes: '\t' '\n' '\v' '\f' '\r' ' '. *)
Definition asciiSpace (c : ascii) : bool := byteIn c [9; 10; 11; 12; 13; 32]%N.

(** [unicode.IsSpace] on the runes UTF-8 writes in two bytes:
    U+0085 (C2 85) and U+00A0 (C2 A0). *)
Definition space2 (a b : ascii) : bool :=
  N.eqb (N_of_ascii a) 194 && byteIn b [133; 160]%N.

(** [unicode.IsSpace] on the runes UTF-8 writes in three bytes: U+1680,
    U+2000..U+200A, U+2028, U+2029, U+202F, U+205F, U+3000. *)
Definition space3 (a b c : ascii) : bool :=
  let a := N_of_ascii a in
  let b := N_of_ascii b in
  let c := N_of_ascii c in
  ((a =? 225) && (b =? 154) && (c =? 128)
   || (a =? 226) && (b =? 128) && ((128 <=? c) && (c <=? 138))
   || (a =? 226) && (b =? 128) && ((c =? 168) || (c =? 169) || (c =? 175))
   || (a =? 226) && (b =? 129) && (c =? 159)
   || (a =? 227) && (b =? 128) && (c =? 128))%N.

(** [strings.TrimLeftFunc(s, unicode.IsSpace)]: drops runes from the front
    while they are white space. *)
Fixpoint TrimLeftSpace (s : string) : string :=
  match s with
  | EmptyString => EmptyString
  | String a r =>
      if asciiSpace a then TrimLeftSpace r
      else match r with
           | String b r2 =>
               if space2 a b then TrimLeftSpace r2
               else match r2 with
                    | String c r3 => if space3 a b c then TrimLeftSpace r3 else s
                    | EmptyString => s
                    end
           | EmptyString => s
           end
  end.

(** The same from the back, on the reversed bytes: the last rune is a
    white-space rune exactly when the string ends with its encoding. *)
Fixpoint TrimLeftSpaceRev (s : string) : string :=
  match s with
  | EmptyString => EmptyString
  | String a r =>
      if asciiSpace a then TrimLeftSpaceRev r
      else match r with
           | String b r2 =>
               if space2 b a then TrimLeftSpaceRev r2
               else match r2 with
                    | String c r3 => if space3 c b a then TrimLeftSpaceRev r3 else s
                    | EmptyString => s
                    end
           | EmptyString => s
           end
  end.

Definition TrimRightSpace (s : string) : string :=
  String.rev (TrimLeftSpaceRev (String.rev s)).

(** [strings.TrimSpace]. *)
Definition TrimSpace (s : string) : string := TrimRightSpace (TrimLeftSpace s).

(** [strings.Contains(s, substr)]. *)
Fixpoint Contains (s substr : string) : bool :=
  String.prefix substr s
  || match s with
     | EmptyString => false
     | String _ r => Contains r substr
     end.

(** The verb [%d] of [fmt.Sprintf] on an [int]. *)
Definition itoa (n : Z) : string := NilZero.string_of_int (Z.to_int n).

(** [len] of a map. *)
Definition len {V} (m : gmap string V) : Z := Z.of_nat (size m).

(** [len] of a map that may be nil: a nil map has length 0. *)
Definition lenNil {V} (m : option (gmap string V)) : Z :=
  match m with
  | Some m => len m
  | None => 0
  end.

(** The run-time errors of Go the server can run into. *)
Definition nilDereference : string :=
  "runtime error: invalid memory address or nil pointer dereference".
Definition nilMapWrite : string := "assignment to entry in nil map".

Definition hexDigit (n : N) : ascii :=
  if (n <? 10)%N then byte (48 + n) else byte (87 + n).

(** [hex.EncodeToString]. *)
Fixpoint hexEncode (s : string) : string :=
  match s with
  | EmptyString => EmptyString
  | String a r =>
      let n := N_of_ascii a in
      String (hexDigit (n / 16)) (String (hexDigit (n mod 16)) (hexEncode r))
  end.

Definition b64Digit (n : N) : ascii :=
  if (n <? 26)%N then byte (65 + n)
  else if (n <? 52)%N then byte (71 + n)
  else if (n <? 62)%N then byte (n - 4)
  else if (n =? 62)%N then "+"%char else "/"%char.

(** [base64.StdEncoding.EncodeToString]. *)
Fixpoint b64Encode (s : string) : string :=
  match s with
  | EmptyString => EmptyString
  | String a EmptyString =>
      let n := (N_of_ascii a * 65536)%N in
      String (b64Digit (n / 262144)) (String (b64Digit ((n / 4096) mod 64)) "==")
  | String a (String b EmptyString) =>
      let n := (N_of_ascii a * 65536 + N_of_ascii b * 256)%N in
      String (b64Digit (n / 262144)) (String (b64Digit ((n / 4096) mod 64))
        (String (b64Digit ((n / 64) mod 64)) "="))
  | String a (String b (String c r)) =>
      let n := (N_of_ascii a * 65536 + N_of_ascii b * 256 + N_of_ascii c)%N in
      String (b64Digit (n / 262144)) (String (b64Digit ((n / 4096) mod 64))
        (String (b64Digit ((n / 64) mod 64)) (String (b64Digit (n mod 64)) (b64Encode r))))
  end.

(** [s[:n]] of a string that has at least [n] bytes. *)
Definition sliceTo (n : nat) (s : string) : string := String.substring 0 n s.

End Go.

(** HTTP status codes of [net/http]. *)
Definition StatusOK : Z := 200.
Definition StatusMovedPermanently : Z := 301.
Definition StatusBadRequest : Z := 400.
Definition StatusUnauthorized : Z := 401.
Definition StatusForbidden : Z := 403.
Definition StatusNotFound : Z := 404.
Definition StatusMethodNotAllowed : Z := 405.
Definition StatusConflict : Z := 409.
Definition StatusInternalServerError : Z := 500.

Definition MethodPost : string := "POST".
Definition MethodConnect : string := "CONNECT".


(** ** Wire types and records (server.go, storage.go) *)

Definition Transport : Type := string.
Definition TransportUDP : Transport := "udp".
Definition TransportTCP : Transport := "tcp".

Record LoginRequest := { lq_Username : string; lq_Password : string }.

Record RegisterRequest :=
  { rq_Username : string; rq_Password : string; rq_DeviceID : string }.

Record LoginResponse := { lr_SessionToken : string; lr_DeviceToken : string }.

Record RegisterResponse := { rr_SessionToken : string; rr_DeviceToken : string }.

Record RefreshTokenRequest := { fq_DeviceToken : string }.

Record RefreshTokenResponse := { fr_SessionToken : string }.

Record CreateRoomRequest :=
  { cq_Name : string; cq_PreferredTransport : Transport; cq_MTU : Z }.

Record CreateRoomResponse :=
  { cr_RoomID : string; cr_OverlaySubnet : string;
    cr_PreferredTransport : Transport; cr_MTU : Z }.

Record JoinRoomRequest :=
  { jq_RoomID : string; jq_DeviceID : string; jq_SessionToken : string }.

Record JoinRoomResponse :=
  { jr_VirtualIP : string; jr_SessionKey : string; jr_Transport : Transport;
    jr_KeepaliveIntervalSec : Z; jr_OverlaySubnetReference : string }.

Record userRecord :=
  { Username : string; Salt : string; Hash : string; Device : string }.

(** [Members] is a map that may be nil ([None]). *)
Record roomRecord :=
  { ID : string; Name : string; PreferredTransport : Transport; MTU : Z;
    OverlaySubnet : string; KeepaliveInterval : Z;
    Members : option (gmap string string) }.

(** [Rooms] maps to pointers, [*roomRecord]: [None] is the nil pointer. *)
Record persistentState :=
  { Users : gmap string userRecord;
    DeviceBags : gmap string string;
    Rooms : gmap string (option roomRecord) }.

(** [Server] without its mux and its mutex.  The room map holds pointers in
    Go, [None] for nil; every pointer that is not nil is stored under one key
    only, so a write through the pointer is a write at that key. *)
Record Server :=
  { users : gmap string userRecord;
    sessions : gmap string string;
    deviceBags : gmap string string;
    rooms : gmap string (option roomRecord);
    persistPath : string }.

Definition setUsers (f : gmap string userRecord → gmap string userRecord) (s : Server) : Server :=
  {| users := f (users s); sessions := sessions s; deviceBags := deviceBags s;
     rooms := rooms s; persistPath := persistPath s |}.

Definition setSessions (f : gmap string string → gmap string string) (s : Server) : Server :=
  {| users := users s; sessions := f (sessions s); deviceBags := deviceBags s;
     rooms := rooms s; persistPath := persistPath s |}.

Definition setDeviceBags (f : gmap string string → gmap string string) (s : Server) : Server :=
  {| users := users s; sessions := sessions s; deviceBags := f (deviceBags s);
     rooms := rooms s; persistPath := persistPath s |}.

Definition setRooms (f : gmap string (option roomRecord) → gmap string (option roomRecord))
    (s : Server) : Server :=
  {| users := users s; sessions := sessions s; deviceBags := deviceBags s;
     rooms := f (rooms s); persistPath := persistPath s |}.

Definition setMembers (members : gmap string string) (r : roomRecord) : roomRecord :=
  {| ID := ID r; Name := Name r; PreferredTransport := PreferredTransport r;
     MTU := MTU r; OverlaySubnet := OverlaySubnet r;
     KeepaliveInterval := KeepaliveInterval r; Members := Some members |}.

(** A Go [error]: [None] is nil, [Some msg] an error whose text is [msg]. *)
Definition error : Type := option string.

(** What a handler writes to its [http.ResponseWriter]. *)
Inductive Body :=
  | NoBody
  | ErrorBody (msg : string)
  | RegisterBody (r : RegisterResponse)
  | LoginBody (r : LoginResponse)
  | RefreshBody (r : RefreshTokenResponse)
  | CreateRoomBody (r : CreateRoomResponse)
  | JoinRoomBody (r : JoinRoomResponse).

Record Response := { Status : Z; Payload : Body }.

(** An HTTP request as a handler sees it: the method, and what [decodeJSON]
    makes of the body for the handler's request type. *)
Record Request (T : Type) := { Method : string; Decoded : string + T }.
Arguments Method {T} _.
Arguments Decoded {T} _.

Definition post {T} (req : T) : Request T := {| Method := MethodPost; Decoded := inr req |}.

(** How a handler ends: it returns, and has written its response, or it
    panics before it wrote one.  [net/http] recovers the panic of a handler
    and closes the connection, so the client gets no response; the mutex is
    released (by the deferred [Unlock], or before the panic), and the server
    goes on from the state the handler left. *)
Inductive Outcome (R : Type) :=
  | Wrote (resp : R)
  | Panic (msg : string).
Arguments Wrote {R} _.
Arguments Panic {R} _.

(** What a handler does that its caller or the operator can observe, in the
    order it does it. *)
Inductive Event :=
  | CallPersistLocked
  | CallSaveState (path : string)
  | WroteResponse (status : Z).

(** Library functions that are taken as given: SHA-256, the JSON codec of
    [persistentState], [filepath.Dir], and the type of file contents. *)
Class Platform := {
  FileData : Type;
  Sum256 : string → string;
  jsonMarshalIndent : persistentState → string + FileData;
  jsonUnmarshal : FileData → string + persistentState;
  filepathDir : string → string
}.

Section Protocol.

Context {P : Platform}.

(** The surroundings of the server: the files, the bytes [crypto/rand] hands
    out with the number already drawn, the outcome of each file-system call
    ([Some msg] fails it) with the number of calls made, and the events so
    far. *)
Record World :=
  { disk : gmap string FileData;
    entropy : nat → ascii;
    drawn : nat;
    faults : nat → error;
    ioOps : nat;
    trace : list Event }.

(** Handlers run with the server locked: a computation takes the server and
    the world and gives them back with its result. *)
Definition M (A : Type) : Type := Server → World → A * Server * World.

#[export] Instance M_ret : MRet M := λ A a s w, (a, s, w).

#[export] Instance M_bind : MBind M :=
  λ A B f m s w, let '(a, s', w') := m s w in f a s' w'.

Definition srv : M Server := λ s w, (s, s, w).

Definition update (f : Server → Server) : M unit := λ s w, (tt, f s, w).

Definition emit (e : Event) : M unit :=
  λ s w, (tt, s, {| disk := disk w; entropy := entropy w; drawn := drawn w;
                    faults := faults w; ioOps := ioOps w;
                    trace := trace w ++ [e] |}).

(** [rand.Read] into a buffer of [n] bytes. *)
Definition randRead (n : nat) : M string :=
  λ s w, (string_of_list_ascii (map (entropy w) (seq (drawn w) n)), s,
          {| disk := disk w; entropy := entropy w; drawn := (drawn w + n)%nat;
             faults := faults w; ioOps := ioOps w; trace := trace w |}).

(** The outcome of the next file-system call. *)
Definition syscall : M error :=
  λ s w, (faults w (ioOps w), s,
          {| disk := disk w; entropy := entropy w; drawn := drawn w;
             faults := faults w; ioOps := S (ioOps w); trace := trace w |}).

Definition setDisk (f : gmap string FileData → gmap string FileData) : M unit :=
  λ s w, (tt, s, {| disk := f (disk w); entropy := entropy w; drawn := drawn w;
                    faults := faults w; ioOps := ioOps w; trace := trace w |}).

Definition getDisk : M (gmap string FileData) := λ s w, (disk w, s, w).

(** A handler that returns after [m] wrote its response, and one that
    panics. *)
Definition wrote {R} (m : M R) : M (Outcome R) := resp ← m; mret (Wrote resp).

Definition panic {R} (msg : string) : M (Outcome R) := mret (Panic msg).

(** [os.MkdirAll]; directories are not part of [disk]. *)
Definition MkdirAll (dir : string) : M error := syscall.

(** [os.WriteFile]. *)
Definition WriteFile (name : string) (data : FileData) : M error :=
  err ← syscall;
  match err with
  | Some msg => mret (Some msg)
  | None => _ ← setDisk <[name := data]>; mret None
  end.

(** [os.Rename]: the new name takes the file over in one step. *)
Definition Rename (oldpath newpath : string) : M error :=
  err ← syscall;
  match err with
  | Some msg => mret (Some msg)
  | None =>
      d ← getDisk;
      match d !! oldpath with
      | None => mret (Some "no such file or directory")
      | Some data => _ ← setDisk (λ d, <[newpath := data]> (delete oldpath d)); mret None
      end
  end.

Inductive ReadResult :=
  | ReadData (data : FileData)
  | ReadNotExist
  | ReadFailed (msg : string).

(** [os.ReadFile]. *)
Definition ReadFile (name : string) : M ReadResult :=
  err ← syscall;
  match err with
  | Some msg => mret (ReadFailed msg)
  | None =>
      d ← getDisk;
      match d !! name with
      | None => mret ReadNotExist
      | Some data => mret (ReadData data)
      end
  end.

(** *** storage.go *)

Definition loadState (path : string) : M (persistentState * error) :=
  let state := {| Users := ∅; DeviceBags := ∅; Rooms := ∅ |} in
  r ← ReadFile path;
  match r with
  | ReadNotExist => mret (state, None)
  | ReadFailed msg => mret (state, Some ("read state: " ++ msg))
  | ReadData data =>
      match jsonUnmarshal data with
      | inl msg => mret (state, Some ("decode state: " ++ msg))
      | inr state => mret (state, None)
      end
  end.

Definition saveState (path : string) (state : persistentState) : M error :=
  _ ← emit (CallSaveState path);
  let tmp := path ++ ".tmp" in
  match jsonMarshalIndent state with
  | inl msg => mret (Some ("encode state: " ++ msg))
  | inr encoded =>
      err ← MkdirAll (filepathDir path);
      match err with
      | Some msg => mret (Some ("create state dir: " ++ msg))
      | None =>
          err ← WriteFile tmp encoded;
          match err with
          | Some msg => mret (Some ("write temp state: " ++ msg))
          | None =>
              err ← Rename tmp path;
              match err with
              | Some msg => mret (Some ("move state into place: " ++ msg))
              | None => mret None
              end
          end
      end
  end.

(** *** server.go *)

Definition writeResponse (status : Z) (body : Body) : M Response :=
  _ ← emit (WroteResponse status);
  mret {| Status := status; Payload := body |}.

Definition writeError (status : Z) (err : string) : M Response :=
  writeResponse status (ErrorBody err).

Definition writeJSON (body : Body) : M Response := writeResponse StatusOK body.

(** [w.WriteHeader(status)] with nothing after it. *)
Definition WriteHeader (status : Z) : M Response := writeResponse status NoBody.

Definition newToken : M string :=
  buf ← randRead 16; mret (Go.hexEncode buf).

Definition randomSalt : M string :=
  buf ← randRead 8; mret (Go.b64Encode buf).

Definition hashPassword (password salt : string) : string :=
  Go.b64Encode (Sum256 (salt ++ ":" ++ password)).

Definition seedDemoUser : M unit :=
  salt ← randomSalt;
  let hash := hashPassword "password123" salt in
  _ ← update (setUsers <["gamer" :=
         {| Username := "gamer"; Salt := salt; Hash := hash; Device := "demo-device" |}]>);
  update (setDeviceBags <["demo-device" := "gamer"]>).

Definition loadFromDisk : M error :=
  s ← srv;
  '(state, err) ← loadState (persistPath s);
  match err with
  | Some msg => mret (Some msg)
  | None =>
      if decide (Go.len (Users state) = 0) then
        _ ← seedDemoUser; mret None
      else
        _ ← update (setUsers (λ _, Users state));
        _ ← update (setDeviceBags (λ _, DeviceBags state));
        _ ← update (setRooms (λ _, Rooms state));
        mret None
  end.

Definition persistLocked : M error :=
  _ ← emit CallPersistLocked;
  s ← srv;
  if decide (persistPath s = "") then mret None
  else
    let state := {| Users := users s; DeviceBags := deviceBags s; Rooms := rooms s |} in
    err ← MkdirAll (filepathDir (persistPath s));
    match err with
    | Some msg => mret (Some msg)
    | None => saveState (persistPath s) state
    end.

Definition handleRegister (r : Request RegisterRequest) : M Response :=
  if decide (Method r ≠ MethodPost) then WriteHeader StatusMethodNotAllowed
  else match Decoded r with
  | inl err => writeError StatusBadRequest err
  | inr req =>
    if decide (Go.TrimSpace (rq_Username req) = "" ∨ Go.TrimSpace (rq_Password req) = "")
    then writeError StatusBadRequest "username and password required"
    else
      DeviceID ← (if decide (rq_DeviceID req = "")
                  then tok ← newToken; mret ("device-" ++ Go.sliceTo 6 tok)
                  else mret (rq_DeviceID req));
      if Go.Contains (rq_Username req) " "
      then writeError StatusBadRequest "username may not contain spaces"
      else
        s ← srv;
        match users s !! rq_Username req with
        | Some _ => writeError StatusConflict "user already exists"
        | None =>
            salt ← randomSalt;
            let record := {| Username := rq_Username req; Salt := salt;
                             Hash := hashPassword (rq_Password req) salt;
                             Device := DeviceID |} in
            _ ← update (setUsers <[rq_Username req := record]>);
            _ ← update (setDeviceBags <[DeviceID := rq_Username req]>);
            sessionToken ← newToken;
            deviceToken ← newToken;
            _ ← update (setSessions <[sessionToken := rq_Username req]>);
            _ ← update (setDeviceBags <[deviceToken := rq_Username req]>);
            err ← persistLocked;
            match err with
            | Some msg => writeError StatusInternalServerError ("persist: " ++ msg)
            | None => writeJSON (RegisterBody {| rr_SessionToken := sessionToken;
                                                 rr_DeviceToken := deviceToken |})
            end
        end
  end.

Definition handleLogin (r : Request LoginRequest) : M Response :=
  if decide (Method r ≠ MethodPost) then WriteHeader StatusMethodNotAllowed
  else match Decoded r with
  | inl err => writeError StatusBadRequest err
  | inr req =>
    s ← srv;
    match users s !! lq_Username req with
    | None => writeError StatusUnauthorized "invalid credentials"
    | Some record =>
      if decide (Hash record ≠ hashPassword (lq_Password req) (Salt record))
      then writeError StatusUnauthorized "invalid credentials"
      else
        sessionToken ← newToken;
        deviceToken ← newToken;
        _ ← update (setSessions <[sessionToken := lq_Username req]>);
        _ ← update (setDeviceBags <[deviceToken := lq_Username req]>);
        err ← persistLocked;
        match err with
        | Some msg => writeError StatusInternalServerError ("persist: " ++ msg)
        | None => writeJSON (LoginBody {| lr_SessionToken := sessionToken;
                                          lr_DeviceToken := deviceToken |})
        end
    end
  end.

Definition handleRefresh (r : Request RefreshTokenRequest) : M Response :=
  if decide (Method r ≠ MethodPost) then WriteHeader StatusMethodNotAllowed
  else match Decoded r with
  | inl err => writeError StatusBadRequest err
  | inr req =>
    s ← srv;
    match deviceBags s !! fq_DeviceToken req with
    | None => writeError StatusUnauthorized "device token invalid"
    | Some username =>
        sessionToken ← newToken;
        _ ← update (setSessions <[sessionToken := username]>);
        writeJSON (RefreshBody {| fr_SessionToken := sessionToken |})
    end
  end.

Definition handleCreateRoom (r : Request CreateRoomRequest) : M Response :=
  if decide (Method r ≠ MethodPost) then WriteHeader StatusMethodNotAllowed
  else match Decoded r with
  | inl err => writeError StatusBadRequest err
  | inr req =>
    s ← srv;
    let roomID := "room-" ++ Go.itoa (Go.len (rooms s) + 1) in
    let subnet := "10.0." ++ Go.itoa (Go.len (rooms s) + 1) ++ ".0/24" in
    let mtu := if decide (cq_MTU req = 0) then 1400 else cq_MTU req in
    let transport := if decide (cq_PreferredTransport req = "")
                     then TransportUDP else cq_PreferredTransport req in
    let rec := {| ID := roomID; Name := cq_Name req; PreferredTransport := transport;
                  MTU := mtu; OverlaySubnet := subnet; KeepaliveInterval := 15;
                  Members := Some ∅ |} in
    _ ← update (setRooms <[roomID := Some rec]>);
    err ← persistLocked;
    match err with
    | Some msg => writeError StatusInternalServerError ("persist: " ++ msg)
    | None => writeJSON (CreateRoomBody {| cr_RoomID := roomID; cr_OverlaySubnet := subnet;
                                           cr_PreferredTransport := PreferredTransport rec;
                                           cr_MTU := MTU rec |})
    end
  end.

(** [room.Members] of a nil [room] panics where the virtual IP is made;
    [room.Members[req.DeviceID] = username] panics when the member map is
    nil, after the session key was drawn. *)
Definition handleJoinRoom (r : Request JoinRoomRequest) : M (Outcome Response) :=
  if decide (Method r ≠ MethodPost) then wrote (WriteHeader StatusMethodNotAllowed)
  else match Decoded r with
  | inl err => wrote (writeError StatusBadRequest err)
  | inr req =>
    s ← srv;
    match sessions s !! jq_SessionToken req with
    | None => wrote (writeError StatusUnauthorized "session invalid")
    | Some username =>
      match rooms s !! jq_RoomID req with
      | None => wrote (writeError StatusNotFound "room not found")
      | Some None => panic Go.nilDereference
      | Some (Some room) =>
          let virtualIP := "10.0." ++ Go.itoa (Go.lenNil (Members room) + 1) ++ "."
                             ++ Go.itoa (Go.lenNil (Members room) + 2) in
          sessionKey ← newToken;
          match Members room with
          | None => panic Go.nilMapWrite
          | Some members =>
              let room := setMembers (<[jq_DeviceID req := username]> members) room in
              _ ← update (setRooms <[jq_RoomID req := Some room]>);
              err ← persistLocked;
              match err with
              | Some msg =>
                  wrote (writeError StatusInternalServerError ("persist: " ++ msg))
              | None => wrote (writeJSON (JoinRoomBody
                           {| jr_VirtualIP := virtualIP; jr_SessionKey := sessionKey;
                              jr_Transport := PreferredTransport room;
                              jr_KeepaliveIntervalSec := KeepaliveInterval room;
                              jr_OverlaySubnetReference := OverlaySubnet room |}))
              end
          end
      end
    end
  end.

(** [NewServerWithStorage]: the server, or the error of [loadFromDisk]. *)
Definition NewServerWithStorage (path : string) (w : World) : (string + Server) * World :=
  let s := {| users := ∅; sessions := ∅; deviceBags := ∅; rooms := ∅;
              persistPath := path |} in
  if decide (path ≠ "") then
    let '(err, s', w') := loadFromDisk s w in
    match err with
    | Some msg => (inl msg, w')
    | None => (inr s', w')
    end
  else
    let '(_, s', w') := seedDemoUser s w in (inr s', w').

(** The routes of [registerRoutes] that touch the server state
    ([/rooms/keepalive] and [/tunnel/bootstrap] only read it). *)
Inductive Call :=
  | AuthRegister (r : Request RegisterRequest)
  | AuthLogin (r : Request LoginRequest)
  | AuthRefresh (r : Request RefreshTokenRequest)
  | Rooms_ (r : Request CreateRoomRequest)
  | RoomsJoin (r : Request JoinRoomRequest).

Definition ServeHTTP (c : Call) : M (Outcome Response) :=
  match c with
  | AuthRegister r => wrote (handleRegister r)
  | AuthLogin r => wrote (handleLogin r)
  | AuthRefresh r => wrote (handleRefresh r)
  | Rooms_ r => wrote (handleCreateRoom r)
  | RoomsJoin r => handleJoinRoom r
  end.

(** The states a server process can be in: as [NewServerWithStorage] built
    it, and after any request served from such a state, also one that
    panicked. *)
Inductive reachable : Server → Prop :=
  | reachable_new path w s w' :
      NewServerWithStorage path w = (inr s, w') → reachable s
  | reachable_serve s w c o s' w' :
      reachable s → ServeHTTP c s w = (o, s', w') → reachable s'.

End Protocol.

Arguments World : clear implicits.
Arguments M : clear implicits.

(** What [persistLocked] hands to [saveState]. *)
Definition snapshot (s : Server) : persistentState :=
  {| Users := users s; DeviceBags := deviceBags s; Rooms := rooms s |}.

(** The file system answers every call. *)
Definition storage_healthy {P : Platform} (w : World P) : Prop :=
  ∀ n, faults w n = None.

(** [json.MarshalIndent] has no error on a [persistentState] (strings,
    integers and maps with string keys only). *)
Definition marshal_total (P : Platform) : Prop :=
  ∀ st, ∃ data, jsonMarshalIndent st = inr data.

(** [json.Unmarshal] reads back what [json.MarshalIndent] wrote for [st]. *)
Definition json_faithful (P : Platform) (st : persistentState) : Prop :=
  ∃ data, jsonMarshalIndent st = inr data ∧ jsonUnmarshal data = inr st.

(** [password] is the password [username] was stored with. *)
Definition credential {P : Platform} (s : Server) (username password : string) : Prop :=
  ∃ record, users s !! username = Some record
            ∧ Hash record = hashPassword password (Salt record).

(** The kinds of failure of the specification and the status codes the
    handlers answer them with. *)
Inductive Failure :=
  | InvalidInput | Unauthorized | Forbidden | NotFound | Conflict | IOFailure.

Definition failure_of_status (status : Z) : option Failure :=
  if decide (status = StatusBadRequest) then Some InvalidInput
  else if decide (status = StatusUnauthorized) then Some Unauthorized
  else if decide (status = StatusForbidden) then Some Forbidden
  else if decide (status = StatusNotFound) then Some NotFound
  else if decide (status = StatusConflict) then Some Conflict
  else if decide (status = StatusInternalServerError) then Some IOFailure
  else None.

(** The routes that change what [persistLocked] saves. *)
Definition changes_persisted (c : Call) : bool :=
  match c with
  | AuthRefresh _ => false
  | _ => true
  end.

(** ** What the handlers leave behind *)

Section Outcomes.

Context {P : Platform}.

Implicit Types (s : Server).

(** The room [handleCreateRoom] stores for a request. *)
Definition newRoom s (req : CreateRoomRequest) : roomRecord :=
  let n := Go.len (rooms s) + 1 in
  {| ID := "room-" ++ Go.itoa n;
     Name := cq_Name req;
     PreferredTransport :=
       if decide (cq_PreferredTransport req = "") then "udp" else cq_PreferredTransport req;
     MTU := if decide (cq_MTU req = 0) then 1400 else cq_MTU req;
     OverlaySubnet := "10.0." ++ Go.itoa n ++ ".0/24";
     KeepaliveInterval := 15;
     Members := Some ∅ |}.

(** [strings.TrimSpace(x) == ""]: [x] is empty or white space only. *)
Definition blank (x : string) : Prop := Go.TrimSpace x = "".

#[export] Instance blank_dec (x : string) : Decision (blank x) :=
  decide (Go.TrimSpace x = "").

(** The server after [handleRegister] has stored a user. *)
Definition registerUser s (req : RegisterRequest) (salt DeviceID sessionToken deviceToken : string)
    : Server :=
  setDeviceBags <[deviceToken := rq_Username req]>
    (setSessions <[sessionToken := rq_Username req]>
       (setDeviceBags <[DeviceID := rq_Username req]>
          (setUsers <[rq_Username req :=
             {| Username := rq_Username req; Salt := salt;
                Hash := hashPassword (rq_Password req) salt;
                Device := DeviceID |}]> s))).

(** The server after [handleLogin] has issued tokens. *)
Definition loginUser s (username sessionToken deviceToken : string) : Server :=
  setDeviceBags <[deviceToken := username]>
    (setSessions <[sessionToken := username]> s).

(** The room after [handleJoinRoom] wrote the device into its member map
    [members]. *)
Definition joinedRoom (room : roomRecord) (members : gmap string string)
    (DeviceID username : string) : roomRecord :=
  setMembers (<[DeviceID := username]> members) room.

End Outcomes.

(** ** A platform and worlds to run the handlers on *)

(** A platform whose files hold the saved state as it is, and whose digest
    is the text itself. *)
Definition memPlatform : Platform :=
  {| FileData := persistentState;
     Sum256 := λ s, s;
     jsonMarshalIndent := inr;
     jsonUnmarshal := inr;
     filepathDir := λ s, s |}.

(** A world with no files, in which no file-system call fails and the
    random bytes are 0, 1, 2, ... *)
Definition quietWorld (P : Platform) : World P :=
  {| disk := ∅; entropy := λ n, Go.byte (N.of_nat n); drawn := 0;
     faults := λ _, None; ioOps := 0; trace := [] |}.

(** The server, the world and the answer after a call. *)
Definition serverAfter {P : Platform} {A} (r : A * Server * World P) : Server := r.1.2.
Definition worldAfter {P : Platform} {A} (r : A * Server * World P) : World P := r.2.
Definition answer {P : Platform} {A} (r : A * Server * World P) : A := r.1.1.

(** [NewServer()] in the quiet world. *)
Definition demoServer (P : Platform) : Server * World P :=
  let '(_, s, w) :=
    seedDemoUser {| users := ∅; sessions := ∅; deviceBags := ∅; rooms := ∅;
                    persistPath := "" |} (quietWorld P) in (s, w).

(** The path of the state file in the runs below. *)
Definition statePath : string := "data/state.json".

(** [NewServerWithStorage] on [statePath], with no file there yet. *)
Definition storedServer : Server * World memPlatform :=
  match NewServerWithStorage statePath (quietWorld memPlatform) with
  | (inr s, w) => (s, w)
  | (inl _, w) => ({| users := ∅; sessions := ∅; deviceBags := ∅; rooms := ∅;
                      persistPath := statePath |}, w)
  end.

(** The run of [TestRegisterPersistsState]: [nova] registers, room [alpha]
    is created, and the state is saved. *)
Definition novaRun : Response * Server * World memPlatform :=
  handleRegister
    (post {| rq_Username := "nova"; rq_Password := "warp123"; rq_DeviceID := "rig-device" |})
    storedServer.1 storedServer.2.

Definition alphaRun : Response * Server * World memPlatform :=
  handleCreateRoom (post {| cq_Name := "alpha"; cq_PreferredTransport := ""; cq_MTU := 0 |})
    (serverAfter novaRun) (worldAfter novaRun).

Definition savedRun : error * Server * World memPlatform :=
  persistLocked (serverAfter alphaRun) (worldAfter alphaRun).

(** Two users who register from the same machine. *)
Definition aliceRun : Response * Server * World memPlatform :=
  handleRegister
    (post {| rq_Username := "alice"; rq_Password := "pw1"; rq_DeviceID := "shared-pc" |})
    (demoServer memPlatform).1 (demoServer memPlatform).2.

Definition bobRun : Response * Server * World memPlatform :=
  handleRegister
    (post {| rq_Username := "bob"; rq_Password := "pw2"; rq_DeviceID := "shared-pc" |})
    (serverAfter aliceRun) (worldAfter aliceRun).

(** A username with a tab in it: [a], U+0009, [b]. *)
Definition tabbedName : string := String "a" (String (Go.byte 9) "b").

(** ** Keepalive and tunnel negotiation (server.go) *)

Definition CipherSuite : Type := string.
Definition CipherSuiteAES256GCM : CipherSuite := "aes-256-gcm".
Definition CipherSuiteChaCha20Poly1305 : CipherSuite := "chacha20-poly1305".

(** [Sequence] is a [uint64]. *)
Record Keepalive := { ka_Sequence : Z }.

Record KeepaliveAck :=
  { kk_Sequence : Z; kk_ServerTimeUnix : Z; kk_RecommendedDelay : Z }.

Record TunnelOffer :=
  { to_RoomID : string; to_Transport : Transport; to_CipherSuite : CipherSuite;
    to_EphemeralKey : string }.

Record TunnelAnswer :=
  { ta_Transport : Transport; ta_CipherSuite : CipherSuite; ta_EphemeralKey : string }.

(** What [writeResponse] writes for a handler whose JSON body is a [T]. *)
Inductive Reply (T : Type) :=
  | ReplyNoBody
  | ReplyError (msg : string)
  | ReplyJSON (body : T).
Arguments ReplyNoBody {T}.
Arguments ReplyError {T} _.
Arguments ReplyJSON {T} _.

Record Answer (T : Type) := { a_Status : Z; a_Payload : Reply T }.
Arguments a_Status {T} _.
Arguments a_Payload {T} _.

Section Negotiation.

Context {P : Platform}.

(** [writeResponse] for these bodies; it logs the status as [writeResponse]
    of the other handlers does. *)
Definition writeReply {T} (status : Z) (body : Reply T) : M P (Answer T) :=
  _ ← emit (WroteResponse status);
  mret {| a_Status := status; a_Payload := body |}.

(** [handleKeepalive]; [now] is what [time.Now().Unix()] reads. *)
Definition handleKeepalive (now : Z) (r : Request Keepalive) : M P (Answer KeepaliveAck) :=
  if decide (Method r ≠ MethodPost) then writeReply StatusMethodNotAllowed ReplyNoBody
  else match Decoded r with
  | inl err => writeReply StatusBadRequest (ReplyError err)
  | inr req =>
      let ack := {| kk_Sequence := ka_Sequence req; kk_ServerTimeUnix := now;
                    kk_RecommendedDelay := 5000 |} in
      writeReply StatusOK (ReplyJSON ack)
  end.

(** [room.PreferredTransport] is read only when the offer names no
    transport; it panics when [room] is nil. *)
Definition handleTunnelBootstrap (r : Request TunnelOffer)
    : M P (Outcome (Answer TunnelAnswer)) :=
  if decide (Method r ≠ MethodPost) then wrote (writeReply StatusMethodNotAllowed ReplyNoBody)
  else match Decoded r with
  | inl err => wrote (writeReply StatusBadRequest (ReplyError err))
  | inr req =>
    s ← srv;
    match rooms s !! to_RoomID req with
    | None => wrote (writeReply StatusNotFound (ReplyError "room not found"))
    | Some room =>
        let cipher := if decide (to_CipherSuite req = "")
                      then CipherSuiteAES256GCM else to_CipherSuite req in
        let answer transport :=
          wrote (writeReply StatusOK
                   (ReplyJSON {| ta_Transport := transport; ta_CipherSuite := cipher;
                                 ta_EphemeralKey := to_EphemeralKey req |})) in
        if decide (to_Transport req = "") then
          match room with
          | None => panic Go.nilDereference
          | Some room => answer (PreferredTransport room)
          end
        else answer (to_Transport req)
    end
  end.

(** [NewServer]: [NewServerWithStorage("")] with its error dropped; with the
    empty path there is none. *)
Definition NewServer (w : World P) : Server * World P :=
  match NewServerWithStorage "" w with
  | (inr s, w') => (s, w')
  | (inl _, w') => ({| users := ∅; sessions := ∅; deviceBags := ∅; rooms := ∅;
                       persistPath := "" |}, w')
  end.

End Negotiation.

(** ** The routes (server.go) *)

(** The handlers of [Server]. *)
Inductive Handler :=
  | HandleRegister
  | HandleLogin
  | HandleRefresh
  | HandleCreateRoom
  | HandleJoinRoom
  | HandleKeepalive
  | HandleTunnelBootstrap.

(** [registerRoutes]: the patterns given to the mux with their handlers, in
    the order of the source. *)
Definition registerRoutes : list (string * Handler) :=
  [ ("/auth/register", HandleRegister);
    ("/auth/login", HandleLogin);
    ("/auth/refresh", HandleRefresh);
    ("/rooms", HandleCreateRoom);
    ("/rooms/join", HandleJoinRoom);
    ("/rooms/keepalive", HandleKeepalive);
    ("/tunnel/bootstrap", HandleTunnelBootstrap) ].

(** The handler [http.ServeMux] finds for a path: none of the patterns has a
    host, a method, a wildcard or a slash at its end, so a pattern matches
    the path that equals it and no other. *)
Definition muxHandler (path : string) : option Handler :=
  snd <$> List.find (λ route, bool_decide (route.1 = path)) registerRoutes.

(** A request as the mux gets it: the method, the request URI ([*] for
    [OPTIONS *]), the path of the URL, and the body, which is given by what
    [decodeJSON] makes of it for each request type of the handlers. *)
Record HTTPRequest :=
  { h_Method : string;
    h_RequestURI : string;
    h_Path : string;
    h_Register : string + RegisterRequest;
    h_Login : string + LoginRequest;
    h_Refresh : string + RefreshTokenRequest;
    h_CreateRoom : string + CreateRoomRequest;
    h_JoinRoom : string + JoinRoomRequest;
    h_Keepalive : string + Keepalive;
    h_TunnelOffer : string + TunnelOffer }.

(** How [Server.ServeHTTP] ends: a handler of the server ran, or the mux
    answered by itself, with 400 for the request URI [*], with 301 and the
    path in canonical form for a path that is not, and with [http.NotFound]
    (404, [404 page not found]) for a path that no pattern matches. *)
Inductive Served :=
  | Handled (o : Outcome Response)
  | HandledKeepalive (a : Answer KeepaliveAck)
  | HandledTunnel (o : Outcome (Answer TunnelAnswer))
  | MuxBadRequest
  | MuxRedirect (path : string)
  | MuxNotFound.

Section Routes.

Context {P : Platform}.

(** [cleanPath] of [net/http], which puts a path into canonical form (one
    slash between segments, no [.] and [..] segments), taken as given. *)
Variable cleanPath : string → string.

(** [Server.ServeHTTP], which is [s.mux.ServeHTTP]; [now] is the clock
    [handleKeepalive] reads. *)
Definition muxServeHTTP (now : Z) (r : HTTPRequest) : M P Served :=
  let request {T} (decoded : string + T) : Request T :=
    {| Method := h_Method r; Decoded := decoded |} in
  if decide (h_RequestURI r = "*") then
    _ ← emit (WroteResponse StatusBadRequest); mret MuxBadRequest
  else if decide (h_Method r ≠ MethodConnect ∧ cleanPath (h_Path r) ≠ h_Path r) then
    _ ← emit (WroteResponse StatusMovedPermanently);
    mret (MuxRedirect (cleanPath (h_Path r)))
  else
    match muxHandler (h_Path r) with
    | None => _ ← emit (WroteResponse StatusNotFound); mret MuxNotFound
    | Some HandleRegister =>
        resp ← handleRegister (request (h_Register r)); mret (Handled (Wrote resp))
    | Some HandleLogin =>
        resp ← handleLogin (request (h_Login r)); mret (Handled (Wrote resp))
    | Some HandleRefresh =>
        resp ← handleRefresh (request (h_Refresh r)); mret (Handled (Wrote resp))
    | Some HandleCreateRoom =>
        resp ← handleCreateRoom (request (h_CreateRoom r)); mret (Handled (Wrote resp))
    | Some HandleJoinRoom =>
        o ← handleJoinRoom (request (h_JoinRoom r)); mret (Handled o)
    | Some HandleKeepalive =>
        a ← handleKeepalive now (request (h_Keepalive r)); mret (HandledKeepalive a)
    | Some HandleTunnelBootstrap =>
        o ← handleTunnelBootstrap (request (h_TunnelOffer r)); mret (HandledTunnel o)
    end.

End Routes.

(** ** Transport and cipher names (server.go) *)

Section Names.

(** [strings.Map(unicode.ToLower, s)], the path [strings.ToLower] takes for a
    string with a byte above 127; the Unicode case tables are taken as
    given. *)
Variable mapToLower : string → string.

Definition isASCII (s : string) : bool :=
  forallb (λ c, (N_of_ascii c <? 128)%N) (list_ascii_of_string s).

Definition lowerByte (c : ascii) : ascii :=
  let n := N_of_ascii c in
  if ((65 <=? n) && (n <=? 90))%N then Go.byte (n + 32) else c.

Fixpoint lowerBytes (s : string) : string :=
  match s with
  | EmptyString => EmptyString
  | String c r => String (lowerByte c) (lowerBytes r)
  end.

(** [strings.ToLower]. *)
Definition ToLower (s : string) : string :=
  if isASCII s then lowerBytes s else mapToLower s.

Definition NormalizeTransport (t : Transport) : Transport :=
  let l := ToLower t in
  if decide (l = TransportUDP) then TransportUDP
  else if decide (l = TransportTCP) then TransportTCP
  else "".

Definition ValidateCipherSuite (c : CipherSuite) : CipherSuite :=
  let l := ToLower c in
  if decide (l = CipherSuiteAES256GCM) then CipherSuiteAES256GCM
  else if decide (l = CipherSuiteChaCha20Poly1305) then CipherSuiteChaCha20Poly1305
  else "".

(** Equality of two strings up to the case of the letters A-Z. *)
Fixpoint equalFoldASCII (s t : string) : bool :=
  match s, t with
  | EmptyString, EmptyString => true
  | String a s', String b t' =>
      Ascii.eqb (lowerByte a) (lowerByte b) && equalFoldASCII s' t'
  | _, _ => false
  end.

End Names.

(** ** Shapes of states and requests the properties speak of *)

(** The method and the decoding outcome of the request of a call. *)
Definition callMethod (c : Call) : string :=
  match c with
  | AuthRegister r => Method r
  | AuthLogin r => Method r
  | AuthRefresh r => Method r
  | Rooms_ r => Method r
  | RoomsJoin r => Method r
  end.

Definition callDecodeError (c : Call) : option string :=
  match c with
  | AuthRegister r => match Decoded r with inl e => Some e | inr _ => None end
  | AuthLogin r => match Decoded r with inl e => Some e | inr _ => None end
  | AuthRefresh r => match Decoded r with inl e => Some e | inr _ => None end
  | Rooms_ r => match Decoded r with inl e => Some e | inr _ => None end
  | RoomsJoin r => match Decoded r with inl e => Some e | inr _ => None end
  end.

(** Every token and every room member names a user of the server. *)
Definition tokens_resolve (s : Server) : Prop :=
  (∀ token username, sessions s !! token = Some username → is_Some (users s !! username))
  ∧ (∀ token username, deviceBags s !! token = Some username → is_Some (users s !! username))
  ∧ (∀ RoomID room members DeviceID username,
       rooms s !! RoomID = Some (Some room) → Members room = Some members →
       members !! DeviceID = Some username →
       is_Some (users s !! username)).

(** The key and the record [handleCreateRoom] gives the [n]-th room. *)
Definition roomKey (n : Z) : string := "room-" ++ Go.itoa n.
Definition roomSubnet (n : Z) : string := "10.0." ++ Go.itoa n ++ ".0/24".

(** The keys of the room map are numbered 1 to [len(rooms)], and a room
    that is not nil has the ID and the subnet of its key: so are the rooms
    of a server that never loaded a room. *)
Definition rooms_numbered (s : Server) : Prop :=
  ∀ k ptr, rooms s !! k = Some ptr →
    ∃ n, 1 ≤ n ≤ Go.len (rooms s) ∧ k = roomKey n
         ∧ ∀ room, ptr = Some room →
             ID room = roomKey n ∧ OverlaySubnet room = roomSubnet n.

(** A world with the files [files] in which the file-system call number
    [k] (from now) fails with [msg] and all others succeed. *)
Definition failingWorld (P : Platform) (files : gmap string FileData) (k : nat)
    (msg : string) : World P :=
  {| disk := files; entropy := λ n, Go.byte (N.of_nat n); drawn := 0;
     faults := λ n, if decide (n = k) then Some msg else None; ioOps := 0;
     trace := [] |}.

(** The server or the error [NewServerWithStorage] returns. *)
Definition answer' {P : Platform} (r : (string + Server) * World P) : string + Server := r.1.

(** The server [seedDemoUser] makes of the empty one. *)
Definition seeded {P : Platform} (path salt : string) : Server :=
  {| users := {[ "gamer" := {| Username := "gamer"; Salt := salt;
                               Hash := hashPassword "password123" salt;
                               Device := "demo-device" |} ]};
     sessions := ∅;
     deviceBags := {[ "demo-device" := "gamer" ]};
     rooms := ∅;
     persistPath := path |}.

(** A digit of [hex.EncodeToString]: 0-9 or a-f. *)
Definition isHexDigit (c : ascii) : bool :=
  let n := N_of_ascii c in
  ((48 <=? n) && (n <=? 57) || (97 <=? n) && (n <=? 102))%N.


(** ** More runs for the properties *)

(** A platform whose files may hold what does not decode ([None]). *)
Definition strictPlatform : Platform :=
  {| FileData := option persistentState;
     Sum256 := λ s, s;
     jsonMarshalIndent := λ st, inr (Some st);
     jsonUnmarshal := λ d, match d with
                           | Some st => inr st
                           | None => inl "unexpected end of JSON input"
                           end;
     filepathDir := λ s, s |}.

(** The state file of an earlier run, and a state to save over it. *)
Definition oldFile : persistentState := snapshot (demoServer memPlatform).1.
Definition newFile : persistentState := snapshot (serverAfter aliceRun).

(** A state file with a room and no user. *)
Definition roomsOnlyFile : persistentState :=
  {| Users := ∅; DeviceBags := {[ "orphan-token" := "nobody" ]};
     Rooms := {[ "room-1" := Some {| ID := "room-1"; Name := "orphaned";
                                     PreferredTransport := "udp"; MTU := 1400;
                                     OverlaySubnet := "10.0.1.0/24";
                                     KeepaliveInterval := 15; Members := Some ∅ |} ]} |}.

(** The session token [novaRun] issued. *)
Definition novaSession : string := "101112131415161718191a1b1c1d1e1f".

Definition joinRequest (DeviceID : string) : Request JoinRoomRequest :=
  post {| jq_RoomID := "room-1"; jq_DeviceID := DeviceID; jq_SessionToken := novaSession |}.

(** [nova] joins [room-1] with [rig-device], joins again with the same
    device, and then with [laptop]. *)
Definition joinRun : Outcome Response * Server * World memPlatform :=
  handleJoinRoom (joinRequest "rig-device") (serverAfter alphaRun) (worldAfter alphaRun).

Definition rejoinRun : Outcome Response * Server * World memPlatform :=
  handleJoinRoom (joinRequest "rig-device") (serverAfter joinRun) (worldAfter joinRun).

Definition laptopRun : Outcome Response * Server * World memPlatform :=
  handleJoinRoom (joinRequest "laptop") (serverAfter rejoinRun) (worldAfter rejoinRun).

(** Two rooms on the server [NewServer()] builds. *)
Definition coopRun : Response * Server * World memPlatform :=
  handleCreateRoom (post {| cq_Name := "coop"; cq_PreferredTransport := "udp"; cq_MTU := 1350 |})
    (demoServer memPlatform).1 (demoServer memPlatform).2.

Definition pvpRun : Response * Server * World memPlatform :=
  handleCreateRoom (post {| cq_Name := "pvp"; cq_PreferredTransport := "tcp"; cq_MTU := 0 |})
    (serverAfter coopRun) (worldAfter coopRun).

(** A login with a wrong password. *)
Definition wrongLogin : Request LoginRequest :=
  post {| lq_Username := "gamer"; lq_Password := "letmein" |}.

Definition wrongLoginRun : Response * Server * World memPlatform :=
  handleLogin wrongLogin (demoServer memPlatform).1 (demoServer memPlatform).2.

(** The login of [TestLoginCreateJoinFlow]. *)
Definition gamerLogin : Request LoginRequest :=
  post {| lq_Username := "gamer"; lq_Password := "password123" |}.

Definition gamerLoginRun : Response * Server * World memPlatform :=
  handleLogin gamerLogin (demoServer memPlatform).1 (demoServer memPlatform).2.

(** [nova] registers while the disk is full. *)
Definition novaRequest : RegisterRequest :=
  {| rq_Username := "nova"; rq_Password := "warp123"; rq_DeviceID := "rig-device" |}.

Definition fullDiskRun : Response * Server * World memPlatform :=
  handleRegister (post novaRequest) storedServer.1
    (failingWorld memPlatform ∅ 0 "no space left on device").

(** A GET and a POST with a broken body. *)
Definition getRooms : Call :=
  Rooms_ {| Method := "GET"; Decoded := inl "EOF" |}.

Definition brokenJoin : Call :=
  RoomsJoin {| Method := "POST"; Decoded := inl "unexpected end of JSON input" |}.

(** *** A state file without a member map *)

(** A world with the files [files], in which no file-system call fails. *)
Definition worldWith (P : Platform) (files : gmap string FileData) : World P :=
  {| disk := files; entropy := λ n, Go.byte (N.of_nat n); drawn := 0;
     faults := λ _, None; ioOps := 0; trace := [] |}.

(** A state file with the user [nova] (password [warp123]) and the room
    [room-1] without a member map: in JSON the room has no [Members] key,
    or has [null] for it. *)
Definition legacyRoom : roomRecord :=
  {| ID := "room-1"; Name := "alpha"; PreferredTransport := "udp"; MTU := 1400;
     OverlaySubnet := "10.0.1.0/24"; KeepaliveInterval := 15; Members := None |}.

Definition legacyFile : persistentState :=
  {| Users := {[ "nova" := {| Username := "nova"; Salt := "c2FsdA==";
                              Hash := @hashPassword memPlatform "warp123" "c2FsdA==";
                              Device := "rig-device" |} ]};
     DeviceBags := {[ "rig-device" := "nova" ]};
     Rooms := {[ "room-1" := Some legacyRoom ]} |}.

(** The server is started on that file and [nova] logs in, which saves the
    state; the server is started again on the saved file, [nova] logs in and
    joins [room-1]. *)
Definition legacyServer : Server * World memPlatform :=
  match NewServerWithStorage statePath (worldWith memPlatform {[ statePath := legacyFile ]}) with
  | (inr s, w) => (s, w)
  | (inl _, w) => ({| users := ∅; sessions := ∅; deviceBags := ∅; rooms := ∅;
                      persistPath := statePath |}, w)
  end.

Definition novaLogin : Request LoginRequest :=
  post {| lq_Username := "nova"; lq_Password := "warp123" |}.

Definition legacyLoginRun : Response * Server * World memPlatform :=
  handleLogin novaLogin legacyServer.1 legacyServer.2.

Definition restartedServer : Server * World memPlatform :=
  match NewServerWithStorage statePath (worldAfter legacyLoginRun) with
  | (inr s, w) => (s, w)
  | (inl _, w) => ({| users := ∅; sessions := ∅; deviceBags := ∅; rooms := ∅;
                      persistPath := statePath |}, w)
  end.

Definition restartedLoginRun : Response * Server * World memPlatform :=
  handleLogin novaLogin restartedServer.1 restartedServer.2.

Definition restartedJoinRun : Outcome Response * Server * World memPlatform :=
  handleJoinRoom
    (post {| jq_RoomID := "room-1"; jq_DeviceID := "rig-device";
             jq_SessionToken := "202122232425262728292a2b2c2d2e2f" |})
    (serverAfter restartedLoginRun) (worldAfter restartedLoginRun).

(** *** The first user and a later user *)




(** *** The request for the admin role *)

(** The run of [TestAdminCanGrantAndRevoke] up to its first request for
    [/admin/role]: [gamer] logs in and [candidate] registers. *)
Definition candidateRun : Response * Server * World memPlatform :=
  handleRegister
    (post {| rq_Username := "candidate"; rq_Password := "pw"; rq_DeviceID := "" |})
    (serverAfter gamerLoginRun) (worldAfter gamerLoginRun).

(** [POST /admin/role] with the body [{"session_token": <the session of
    gamer>, "target_user": "candidate", "grant": true}].  Of its keys only
    [session_token] is a field of a request type of the server, of
    [JoinRoomRequest]; [decodeJSON] leaves the other fields empty. *)
Definition grantRequest : HTTPRequest :=
  {| h_Method := "POST"; h_RequestURI := "/admin/role"; h_Path := "/admin/role";
     h_Register := inr {| rq_Username := ""; rq_Password := ""; rq_DeviceID := "" |};
     h_Login := inr {| lq_Username := ""; lq_Password := "" |};
     h_Refresh := inr {| fq_DeviceToken := "" |};
     h_CreateRoom := inr {| cq_Name := ""; cq_PreferredTransport := ""; cq_MTU := 0 |};
     h_JoinRoom := inr {| jq_RoomID := ""; jq_DeviceID := "";
                          jq_SessionToken := "08090a0b0c0d0e0f1011121314151617" |};
     h_Keepalive := inr {| ka_Sequence := 0 |};
     h_TunnelOffer := inr {| to_RoomID := ""; to_Transport := ""; to_CipherSuite := "";
                             to_EphemeralKey := "" |} |}.

(** ** Properties *)

Section Properties.

Context {P : Platform}.

Implicit Types (s : Server) (w : World P).

Ltac mrun :=
  unfold mbind, M_bind, mret, M_ret, srv, update, emit, randRead, syscall,
    setDisk, getDisk in *; simpl in *.

Ltac handler :=
  unfold wrote, panic, newToken, randomSalt, writeError, writeJSON, WriteHeader,
    writeResponse, post in *; mrun.

Lemma syscall_healthy w : storage_healthy w → faults w (ioOps w) = None.
Proof. intros H. apply H. Qed.

(** [persistLocked] leaves the server as it is, logs its call first and
    writes no response; when it returns nil with a path configured, the file
    at the path holds the snapshot of the server. *)
Lemma persistLocked_post s w err s' w' :
  persistLocked s w = (err, s', w') →
  s' = s ∧ entropy w' = entropy w ∧ drawn w' = drawn w ∧ faults w' = faults w
  ∧ (∃ evs, trace w' = (trace w ++ CallPersistLocked :: evs)%list
            ∧ (∀ st, WroteResponse st ∉ evs)
            ∧ (err = None → persistPath s ≠ "" → CallSaveState (persistPath s) ∈ evs))
  ∧ (err = None → persistPath s ≠ "" →
       ∃ data, jsonMarshalIndent (snapshot s) = inr data
               ∧ disk w' !! persistPath s = Some data)
  ∧ (persistPath s = "" → err = None ∧ disk w' = disk w).
Proof.
  unfold persistLocked, saveState, MkdirAll, WriteFile, Rename. mrun.
  intros H. fold (snapshot s) in H.
  repeat (case_decide || case_match); simplify_eq/=;
    repeat match goal with
           | H : <[_:=_]> _ !! _ = _ |- _ => rewrite lookup_insert_eq in H
           end; simplify_eq; split_and!; try done.
  all: try (eexists; split; [first [done | by rewrite <- app_assoc]|]; split;
            [intros st; rewrite ?elem_of_cons, elem_of_nil; naive_solver
            |intros; try done; rewrite ?elem_of_cons; naive_solver ]).
  intros _ _. eexists; split; [done|]. by rewrite lookup_insert_eq.
Qed.

(** With a healthy file system and a marshaller that has no error,
    [persistLocked] returns nil and leaves the file system healthy. *)
Lemma persistLocked_healthy s w :
  storage_healthy w → marshal_total P →
  ∃ w', persistLocked s w = (None, s, w') ∧ storage_healthy w'.
Proof.
  intros Hw Hm. unfold persistLocked, saveState, MkdirAll, WriteFile, Rename. mrun.
  fold (snapshot s). destruct (Hm (snapshot s)) as [data ->].
  case_decide; [by eexists|].
  repeat (simpl; rewrite ?Hw, ?lookup_insert_eq). by eexists.
Qed.

(** [handleCreateRoom] on a well-formed POST: the room is stored whatever
    else happens, and the answer is 200 with the room or 500. *)
Lemma handleCreateRoom_post req s w :
  ∃ resp w',
    handleCreateRoom (post req) s w
      = (resp, setRooms <[ID (newRoom s req) := Some (newRoom s req)]> s, w')
    ∧ (resp = {| Status := StatusOK;
                 Payload := CreateRoomBody
                   {| cr_RoomID := ID (newRoom s req);
                      cr_OverlaySubnet := OverlaySubnet (newRoom s req);
                      cr_PreferredTransport := PreferredTransport (newRoom s req);
                      cr_MTU := MTU (newRoom s req) |} |}
       ∨ ∃ msg, resp = {| Status := StatusInternalServerError; Payload := ErrorBody msg |})
    ∧ (persistPath s = "" → Status resp = StatusOK).
Proof.
  unfold handleCreateRoom. handler.
  destruct (persistLocked _ _) as [[err s1] w1] eqn:Hp.
  apply persistLocked_post in Hp as (-> & _ & _ & _ & _ & _ & Hnil).
  destruct err; simpl; eexists _, _; (split; [reflexivity|]); split; eauto.
  intros Hpath. by destruct (Hnil Hpath).
Qed.

(** The two ways [handleRegister] ends: it turns the request down and
    leaves server and files alone, or it stores the user, calls
    [persistLocked] and answers by its result. *)
Lemma handleRegister_cases r s w resp s' w' :
  handleRegister r s w = (resp, s', w') →
  (s' = s ∧ disk w' = disk w
   ∧ trace w' = (trace w ++ [WroteResponse (Status resp)])%list
   ∧ ((∃ msg, Payload resp = ErrorBody msg) ∨ Payload resp = NoBody)
   ∧ (Status resp = StatusMethodNotAllowed ∧ Method r ≠ MethodPost
      ∨ Status resp = StatusBadRequest
        ∧ (∀ req, Decoded r = inr req →
             blank (rq_Username req) ∨ blank (rq_Password req)
             ∨ Go.Contains (rq_Username req) " " = true)
      ∨ Status resp = StatusConflict
        ∧ ∃ req, Decoded r = inr req ∧ is_Some (users s !! rq_Username req)
                 ∧ ¬ blank (rq_Password req)))
  ∨ (∃ req salt DeviceID sessionToken deviceToken w1 w2 err,
       Method r = MethodPost ∧ Decoded r = inr req
       ∧ ¬ blank (rq_Username req) ∧ ¬ blank (rq_Password req)
       ∧ Go.Contains (rq_Username req) " " = false
       ∧ users s !! rq_Username req = None
       ∧ (rq_DeviceID req ≠ "" → DeviceID = rq_DeviceID req)
       ∧ s' = registerUser s req salt DeviceID sessionToken deviceToken
       ∧ disk w1 = disk w ∧ trace w1 = trace w
       ∧ persistLocked s' w1 = (err, s', w2)
       ∧ disk w' = disk w2
       ∧ trace w' = (trace w2 ++ [WroteResponse (Status resp)])%list
       ∧ match err with
         | None => resp = {| Status := StatusOK;
                             Payload := RegisterBody {| rr_SessionToken := sessionToken;
                                                        rr_DeviceToken := deviceToken |} |}
         | Some msg => resp = {| Status := StatusInternalServerError;
                                 Payload := ErrorBody ("persist: " ++ msg) |}
         end).
Proof.
  unfold handleRegister, blank. handler. intros H.
  repeat (case_decide || case_match); simplify_eq/=.
  all: try (left; split_and!; eauto; naive_solver).
  all: right;
    match goal with
    | H : persistLocked _ _ = _ |- _ =>
        pose proof (persistLocked_post _ _ _ _ _ H) as (-> & _)
    end.
  all: eexists _, _, _, _, _, _, _, _; split_and!;
    [done|done|naive_solver|naive_solver|by destruct (Go.Contains _ _)|done| |
     reflexivity| | |eassumption|done|done|done]; try done.
Qed.

(** The two ways [handleLogin] ends. *)
Lemma handleLogin_cases r s w resp s' w' :
  handleLogin r s w = (resp, s', w') →
  (s' = s ∧ disk w' = disk w
   ∧ trace w' = (trace w ++ [WroteResponse (Status resp)])%list
   ∧ ((∃ msg, Payload resp = ErrorBody msg) ∨ Payload resp = NoBody)
   ∧ (Status resp = StatusMethodNotAllowed ∧ Method r ≠ MethodPost
      ∨ Status resp = StatusBadRequest ∧ (∃ msg, Decoded r = inl msg)
      ∨ Status resp = StatusUnauthorized
        ∧ ∃ req, Decoded r = inr req
                 ∧ ¬ credential s (lq_Username req) (lq_Password req)))
  ∨ (∃ req sessionToken deviceToken w1 w2 err,
       Method r = MethodPost ∧ Decoded r = inr req
       ∧ credential s (lq_Username req) (lq_Password req)
       ∧ s' = loginUser s (lq_Username req) sessionToken deviceToken
       ∧ disk w1 = disk w ∧ trace w1 = trace w
       ∧ persistLocked s' w1 = (err, s', w2)
       ∧ disk w' = disk w2
       ∧ trace w' = (trace w2 ++ [WroteResponse (Status resp)])%list
       ∧ match err with
         | None => resp = {| Status := StatusOK;
                             Payload := LoginBody {| lr_SessionToken := sessionToken;
                                                     lr_DeviceToken := deviceToken |} |}
         | Some msg => resp = {| Status := StatusInternalServerError;
                                 Payload := ErrorBody ("persist: " ++ msg) |}
         end).
Proof.
  unfold handleLogin, credential. handler. intros H.
  repeat (case_decide || case_match); simplify_eq/=.
  all: try (left; split_and!; eauto; naive_solver).
  all: right;
    match goal with
    | H : persistLocked _ _ = _ |- _ =>
        pose proof (persistLocked_post _ _ _ _ _ H) as (-> & _)
    end.
  all: eexists _, _, _, _, _, _; split_and!;
    [done|done|eexists; split; [eassumption|naive_solver]|reflexivity| |
     |eassumption|done|done|done]; try done.
Qed.

(** The two ways [handleRefresh] ends; it never calls [persistLocked]. *)
Lemma handleRefresh_cases r s w resp s' w' :
  handleRefresh r s w = (resp, s', w') →
  disk w' = disk w
  ∧ trace w' = (trace w ++ [WroteResponse (Status resp)])%list
  ∧ (s' = s
     ∧ ((∃ msg, Payload resp = ErrorBody msg) ∨ Payload resp = NoBody)
     ∧ (Status resp = StatusMethodNotAllowed ∧ Method r ≠ MethodPost
        ∨ Status resp = StatusBadRequest ∧ (∃ msg, Decoded r = inl msg)
        ∨ Status resp = StatusUnauthorized
          ∧ ∃ req, Decoded r = inr req ∧ deviceBags s !! fq_DeviceToken req = None)
     ∨ ∃ req username sessionToken,
         Method r = MethodPost ∧ Decoded r = inr req
         ∧ deviceBags s !! fq_DeviceToken req = Some username
         ∧ s' = setSessions <[sessionToken := username]> s
         ∧ resp = {| Status := StatusOK;
                     Payload := RefreshBody {| fr_SessionToken := sessionToken |} |}).
Proof.
  unfold handleRefresh. handler. intros H.
  repeat (case_decide || case_match); simplify_eq/=.
  all: split; [done|split; [done|]].
  all: try (left; split_and!; eauto; naive_solver).
  right. eexists _, _, _. split_and!; done.
Qed.

(** The three ways [handleJoinRoom] ends: it turns the request down and
    leaves server and files alone; it stores the member, calls
    [persistLocked] and answers by its result; or it panics, on a room that
    is nil or on a member map that is nil, and has written nothing. *)
Lemma handleJoinRoom_cases r s w o s' w' :
  handleJoinRoom r s w = (o, s', w') →
  (∃ resp, o = Wrote resp ∧ s' = s ∧ disk w' = disk w
   ∧ trace w' = (trace w ++ [WroteResponse (Status resp)])%list
   ∧ ((∃ msg, Payload resp = ErrorBody msg) ∨ Payload resp = NoBody)
   ∧ (Status resp = StatusMethodNotAllowed ∧ Method r ≠ MethodPost
      ∨ Status resp = StatusBadRequest ∧ (∃ msg, Decoded r = inl msg)
      ∨ Status resp = StatusUnauthorized
        ∧ (∃ req, Decoded r = inr req ∧ sessions s !! jq_SessionToken req = None)
      ∨ Status resp = StatusNotFound
        ∧ ∃ req, Decoded r = inr req ∧ is_Some (sessions s !! jq_SessionToken req)
                 ∧ rooms s !! jq_RoomID req = None))
  ∨ (∃ resp req username room members w1 w2 err,
       o = Wrote resp ∧ Method r = MethodPost ∧ Decoded r = inr req
       ∧ sessions s !! jq_SessionToken req = Some username
       ∧ rooms s !! jq_RoomID req = Some (Some room)
       ∧ Members room = Some members
       ∧ s' = setRooms <[jq_RoomID req :=
                           Some (joinedRoom room members (jq_DeviceID req) username)]> s
       ∧ disk w1 = disk w ∧ trace w1 = trace w
       ∧ persistLocked s' w1 = (err, s', w2)
       ∧ disk w' = disk w2
       ∧ trace w' = (trace w2 ++ [WroteResponse (Status resp)])%list
       ∧ match err with
         | None => ∃ sessionKey,
                   resp = {| Status := StatusOK;
                             Payload := JoinRoomBody
                               {| jr_VirtualIP :=
                                    "10.0." ++ Go.itoa (Go.len members + 1) ++ "."
                                      ++ Go.itoa (Go.len members + 2);
                                  jr_SessionKey := sessionKey;
                                  jr_Transport := PreferredTransport room;
                                  jr_KeepaliveIntervalSec := KeepaliveInterval room;
                                  jr_OverlaySubnetReference := OverlaySubnet room |} |}
         | Some msg => resp = {| Status := StatusInternalServerError;
                                 Payload := ErrorBody ("persist: " ++ msg) |}
         end)
  ∨ (∃ msg req username,
       o = Panic msg ∧ Method r = MethodPost ∧ Decoded r = inr req
       ∧ sessions s !! jq_SessionToken req = Some username
       ∧ (rooms s !! jq_RoomID req = Some None ∧ msg = Go.nilDereference
          ∨ ∃ room, rooms s !! jq_RoomID req = Some (Some room)
                    ∧ Members room = None ∧ msg = Go.nilMapWrite)
       ∧ s' = s ∧ disk w' = disk w ∧ trace w' = trace w).
Proof.
  unfold handleJoinRoom. handler. intros H.
  repeat (case_decide || case_match); simplify_eq/=.
  all: try (left; eexists; split_and!; eauto 8; naive_solver).
  all: try (right; right; eexists _, _, _; split_and!; eauto 8; naive_solver).
  all: right; left;
    match goal with
    | H : persistLocked _ _ = _ |- _ =>
        pose proof (persistLocked_post _ _ _ _ _ H) as (-> & _)
    end.
  all: eexists _, _, _, _, _, _, _, _; split_and!;
    [reflexivity|done|done|eassumption|eassumption|eassumption|reflexivity| |
     |eassumption|done|done|];
    try done.
  by eexists.
Qed.

(** The two ways [handleCreateRoom] ends. *)
Lemma handleCreateRoom_cases r s w resp s' w' :
  handleCreateRoom r s w = (resp, s', w') →
  (s' = s ∧ disk w' = disk w
   ∧ trace w' = (trace w ++ [WroteResponse (Status resp)])%list
   ∧ ((∃ msg, Payload resp = ErrorBody msg) ∨ Payload resp = NoBody)
   ∧ (Status resp = StatusMethodNotAllowed ∧ Method r ≠ MethodPost
      ∨ Status resp = StatusBadRequest ∧ (∃ msg, Decoded r = inl msg)))
  ∨ (∃ req w2 err,
       Method r = MethodPost ∧ Decoded r = inr req
       ∧ s' = setRooms <[ID (newRoom s req) := Some (newRoom s req)]> s
       ∧ persistLocked s' w = (err, s', w2)
       ∧ disk w' = disk w2
       ∧ trace w' = (trace w2 ++ [WroteResponse (Status resp)])%list
       ∧ match err with
         | None => resp = {| Status := StatusOK;
                             Payload := CreateRoomBody
                               {| cr_RoomID := ID (newRoom s req);
                                  cr_OverlaySubnet := OverlaySubnet (newRoom s req);
                                  cr_PreferredTransport := PreferredTransport (newRoom s req);
                                  cr_MTU := MTU (newRoom s req) |} |}
         | Some msg => resp = {| Status := StatusInternalServerError;
                                 Payload := ErrorBody ("persist: " ++ msg) |}
         end).
Proof.
  unfold handleCreateRoom. handler. intros H.
  case_decide as Hm; [simplify_eq/=; left; split_and!; eauto 8|].
  destruct (Decoded r) as [msg|req] eqn:Hd; [simplify_eq/=; left; split_and!; eauto 8|].
  right. destruct (persistLocked _ _) as [[err s1] w1] eqn:Hp.
  pose proof (persistLocked_post _ _ _ _ _ Hp) as (-> & _).
  exists req, w1, err. destruct err; simplify_eq/=; split_and!; done.
Qed.

(** *** What every request keeps *)

Lemma len_zero {V} (m : gmap string V) : Go.len m = 0 ↔ m = ∅.
Proof. unfold Go.len. rewrite <- map_size_empty_iff. lia. Qed.

(** A handler that cannot panic returns with its response. *)
Lemma wrote_inv {R} (m : M P R) s w o s' w' :
  wrote m s w = (o, s', w') → ∃ resp, o = Wrote resp ∧ m s w = (resp, s', w').
Proof.
  unfold wrote. mrun. destruct (m s w) as [[resp s1] w1]. intros [= <- <- <-]. by eexists.
Qed.

(** The handler behind each call. *)
Lemma ServeHTTP_inv c s w o s' w' :
  ServeHTTP c s w = (o, s', w') →
  match c with
  | AuthRegister r => ∃ resp, o = Wrote resp ∧ handleRegister r s w = (resp, s', w')
  | AuthLogin r => ∃ resp, o = Wrote resp ∧ handleLogin r s w = (resp, s', w')
  | AuthRefresh r => ∃ resp, o = Wrote resp ∧ handleRefresh r s w = (resp, s', w')
  | Rooms_ r => ∃ resp, o = Wrote resp ∧ handleCreateRoom r s w = (resp, s', w')
  | RoomsJoin r => handleJoinRoom r s w = (o, s', w')
  end.
Proof. destruct c; simpl; intros H; try by apply wrote_inv in H. done. Qed.

(** A request adds users and never changes or removes one, and leaves the
    path alone. *)
Lemma ServeHTTP_users c s w o s' w' :
  ServeHTTP c s w = (o, s', w') →
  users s ⊆ users s' ∧ persistPath s' = persistPath s.
Proof.
  intros H. apply ServeHTTP_inv in H.
  destruct c as [r|r|r|r|r]; [destruct H as (resp & _ & H)..|].
  - apply handleRegister_cases in H
      as [(-> & _)|(req & ? & ? & ? & ? & ? & ? & ? & _ & _ & _ & _ & _ & Hn & _ & -> & _)];
      [done|]. split; [|done]. simpl. by apply insert_subseteq.
  - apply handleLogin_cases in H as [(-> & _)|(? & ? & ? & ? & ? & ? & _ & _ & _ & -> & _)]; done.
  - apply handleRefresh_cases in H as (_ & _ & [(-> & _)|(? & ? & ? & _ & _ & _ & -> & _)]); done.
  - apply handleCreateRoom_cases in H as [(-> & _)|(? & ? & ? & _ & _ & -> & _)]; done.
  - apply handleJoinRoom_cases in H
      as [(? & _ & -> & _)
         |[(? & ? & ? & ? & ? & ? & ? & ? & _ & _ & _ & _ & _ & _ & -> & _)
          |(? & ? & ? & _ & _ & _ & _ & _ & -> & _)]]; done.
Qed.

Lemma seedDemoUser_post s w :
  ∃ salt w',
    seedDemoUser s w
      = (tt,
         setDeviceBags <["demo-device" := "gamer"]>
           (setUsers <["gamer" := {| Username := "gamer"; Salt := salt;
                                     Hash := hashPassword "password123" salt;
                                     Device := "demo-device" |}]> s),
         w')
    ∧ disk w' = disk w ∧ trace w' = trace w ∧ faults w' = faults w.
Proof. unfold seedDemoUser. handler. by eexists _, _. Qed.

(** A new server has a user, no session, and the path it was given. *)
Lemma NewServerWithStorage_post path w s w' :
  NewServerWithStorage path w = (inr s, w') →
  users s ≠ ∅ ∧ sessions s = ∅ ∧ persistPath s = path.
Proof.
  unfold NewServerWithStorage, loadFromDisk, loadState, ReadFile.
  set (s0 := {| users := ∅; persistPath := path |}).
  intros H. case_decide.
  - revert H. handler.
    repeat (case_decide || case_match); simplify_eq/=; intros; simplify_eq/=;
      try (split_and!; [apply insert_non_empty|done|done]).
    all: split_and!; try done; by rewrite <- len_zero.
  - destruct (seedDemoUser_post s0 w) as (salt & w1 & Hs & _). rewrite Hs in H.
    simplify_eq/=. split_and!; [apply insert_non_empty|done|done].
Qed.

(** Every state of a server process has a user: the demo user is seeded
    whenever none is loaded, and users are never removed. *)
Lemma reachable_users_nonempty s : reachable s → users s ≠ ∅.
Proof.
  induction 1 as [path w s w' H|s w c o s' w' _ IH H].
  - by apply NewServerWithStorage_post in H as (? & _).
  - apply ServeHTTP_users in H as (Hsub & _).
    intros Hempty. rewrite Hempty in Hsub. apply IH.
    apply map_eq. intros k. rewrite lookup_empty.
    destruct (users s !! k) eqn:Hk; [|done].
    eapply lookup_weaken in Hk; [|done]. by rewrite lookup_empty in Hk.
Qed.

(** *** Restart, login and join on a healthy file system *)

(** Starting on a file that holds the snapshot of [s] gives the users,
    device bindings and rooms of [s], and no session. *)
Lemma NewServerWithStorage_loads s path data w :
  path ≠ "" → users s ≠ ∅ →
  disk w !! path = Some data → jsonUnmarshal data = inr (snapshot s) →
  storage_healthy w →
  ∃ w', NewServerWithStorage path w
        = (inr {| users := users s; sessions := ∅; deviceBags := deviceBags s;
                  rooms := rooms s; persistPath := path |}, w')
        ∧ storage_healthy w'.
Proof.
  intros Hpath Hne Hd Hj Hw.
  unfold NewServerWithStorage, loadFromDisk, loadState, ReadFile. handler.
  case_decide; [|done]. rewrite Hw. simpl. rewrite Hd. simpl. rewrite Hj. simpl.
  case_decide as Hz; [by apply len_zero in Hz|]. simpl. by eexists.
Qed.

(** The right password is accepted. *)
Lemma handleLogin_accepts s w username password :
  credential s username password → storage_healthy w → marshal_total P →
  ∃ sessionToken deviceToken w',
    handleLogin (post {| lq_Username := username; lq_Password := password |}) s w
      = ({| Status := StatusOK;
            Payload := LoginBody {| lr_SessionToken := sessionToken;
                                    lr_DeviceToken := deviceToken |} |},
         loginUser s username sessionToken deviceToken, w')
    ∧ storage_healthy w'.
Proof.
  intros (record & Hu & Hh) Hw Hm. unfold handleLogin. handler.
  rewrite Hu. simpl. case_decide; [done|].
  match goal with
  | |- context [persistLocked ?s1 ?w1] =>
      destruct (persistLocked_healthy s1 w1) as (w2 & -> & Hw2); [done|done|]
  end.
  simpl. by eexists _, _, _.
Qed.

(** A session and a room that exist make a join when the room has a
    member map, and the answer carries the room's stored subnet. *)
Lemma handleJoinRoom_accepts s w req username room members :
  sessions s !! jq_SessionToken req = Some username →
  rooms s !! jq_RoomID req = Some (Some room) →
  Members room = Some members →
  storage_healthy w → marshal_total P →
  ∃ jr s' w',
    handleJoinRoom (post req) s w
      = (Wrote {| Status := StatusOK; Payload := JoinRoomBody jr |}, s', w')
    ∧ jr_OverlaySubnetReference jr = OverlaySubnet room
    ∧ jr_Transport jr = PreferredTransport room
    ∧ jr_KeepaliveIntervalSec jr = KeepaliveInterval room
    ∧ storage_healthy w'.
Proof.
  intros Hs Hr Hmem Hw Hm. unfold handleJoinRoom. handler.
  rewrite Hs. simpl. rewrite Hr. simpl. rewrite Hmem. simpl.
  match goal with
  | |- context [persistLocked ?s1 ?w1] =>
      destruct (persistLocked_healthy s1 w1) as (w2 & -> & Hw2); [done|done|]
  end.
  simpl. by eexists _, _, _.
Qed.

(** A join of a room that is nil, or whose member map is nil, panics: no
    response is written, and the server and the files stay as they are. *)
Lemma handleJoinRoom_panics s w req username :
  sessions s !! jq_SessionToken req = Some username →
  rooms s !! jq_RoomID req = Some None
  ∨ (∃ room, rooms s !! jq_RoomID req = Some (Some room) ∧ Members room = None) →
  ∃ msg w', handleJoinRoom (post req) s w = (Panic msg, s, w')
            ∧ disk w' = disk w ∧ trace w' = trace w.
Proof.
  intros Hs Hr. unfold handleJoinRoom. handler. rewrite Hs. simpl.
  destruct Hr as [Hr|(room & Hr & Hmem)]; rewrite Hr; simpl.
  - by eexists _, _.
  - rewrite Hmem. by eexists _, _.
Qed.

(** A password given at registration is the user's password from then on,
    and [password123] is the demo user's. *)
Lemma handleRegister_credential req s w resp s' w' :
  handleRegister (post req) s w = (resp, s', w') → Status resp = StatusOK →
  credential s' (rq_Username req) (rq_Password req).
Proof.
  intros H Hok. apply handleRegister_cases in H
    as [(_ & _ & _ & _ & [(Hst & _)|[(Hst & _)|(Hst & _)]])
       |(req' & ? & ? & ? & ? & ? & ? & ? & _ & Hd & _ & _ & _ & _ & _ & -> & _)];
    try (rewrite Hst in Hok; done).
  simpl in Hd. simplify_eq. eexists. split; [apply lookup_insert_eq|done].
Qed.

Lemma seedDemoUser_credential s w :
  credential (seedDemoUser s w).1.2 "gamer" "password123".
Proof.
  destruct (seedDemoUser_post s w) as (salt & w' & -> & _). simpl.
  eexists. split; [apply lookup_insert_eq|done].
Qed.

Lemma ServeHTTP_credential c s w o s' w' username password :
  ServeHTTP c s w = (o, s', w') →
  credential s username password → credential s' username password.
Proof.
  intros H (record & Hu & Hh). apply ServeHTTP_users in H as (Hsub & _).
  exists record. split; [|done]. by eapply lookup_weaken.
Qed.

(** A state of the service that [persistLocked] saved to its path is what
    a restart on that path starts from: every user of the saved state logs
    in with the password stored for them; with the session of such a login,
    a room of the saved state that has a member map is joined by its room
    ID, and the answer carries the overlay subnet the room was saved with;
    the join of a room that was saved as nil or without a member map
    panics.  (The file system answers its calls and the JSON codec reads
    back what it wrote.) *)
Lemma restart_login_join s w w1 :
  reachable s → persistPath s ≠ "" →
  persistLocked s w = (None, s, w1) →
  json_faithful P (snapshot s) → marshal_total P →
  ∀ w2, disk w2 !! persistPath s = disk w1 !! persistPath s → storage_healthy w2 →
  ∃ s' w3,
    NewServerWithStorage (persistPath s) w2 = (inr s', w3)
    ∧ snapshot s' = snapshot s
    ∧ ∀ username password, credential s username password →
        ∃ lr s'' w4,
          handleLogin (post {| lq_Username := username; lq_Password := password |}) s' w3
            = ({| Status := StatusOK; Payload := LoginBody lr |}, s'', w4)
          ∧ sessions s'' !! lr_SessionToken lr = Some username
          ∧ ∀ RoomID DeviceID ptr, rooms s !! RoomID = Some ptr →
              let join := handleJoinRoom
                            (post {| jq_RoomID := RoomID; jq_DeviceID := DeviceID;
                                     jq_SessionToken := lr_SessionToken lr |}) s'' w4 in
              match ptr with
              | Some {| OverlaySubnet := subnet; Members := Some _ |} =>
                  ∃ jr, answer join = Wrote {| Status := StatusOK; Payload := JoinRoomBody jr |}
                        ∧ jr_OverlaySubnetReference jr = subnet
              | _ => ∃ msg, answer join = Panic msg
                            ∧ serverAfter join = s''
                            ∧ trace (worldAfter join) = trace w4
              end.
Proof.
  intros Hreach Hpath Hsave (data & Hm & Hu) Hmt w2 Hdisk Hw2.
  apply persistLocked_post in Hsave as (_ & _ & _ & _ & _ & Hfile & _).
  destruct (Hfile eq_refl Hpath) as (data' & Hm' & Hd).
  rewrite Hm in Hm'. injection Hm' as <-. rewrite <- Hdisk in Hd.
  destruct (NewServerWithStorage_loads s (persistPath s) data w2)
    as (w3 & Hnew & Hw3); try done.
  { by apply reachable_users_nonempty. }
  set (s' := {| users := users s; sessions := ∅; deviceBags := deviceBags s;
                rooms := rooms s; persistPath := persistPath s |}) in *.
  exists s', w3. split; [exact Hnew|]. split; [done|].
  intros username password Hcred.
  destruct (handleLogin_accepts s' w3 username password)
    as (sessionToken & deviceToken & w4 & Hlogin & Hw4); [exact Hcred|done|done|].
  eexists _, _, w4. split; [exact Hlogin|]. simpl.
  split; [apply lookup_insert_eq|].
  intros RoomID DeviceID ptr Hroom.
  set (s'' := loginUser s' username sessionToken deviceToken).
  set (req := {| jq_RoomID := RoomID; jq_DeviceID := DeviceID;
                 jq_SessionToken := sessionToken |}).
  assert (Hses : sessions s'' !! jq_SessionToken req = Some username).
  { simpl. apply lookup_insert_eq. }
  destruct ptr as [[? ? ? ? subnet ? [members|]]|].
  - destruct (handleJoinRoom_accepts s'' w4 req username _ members Hses Hroom eq_refl)
      as (jr & s3 & w5 & Hjoin & Hsub & _); try done.
    exists jr. by rewrite Hjoin.
  - destruct (handleJoinRoom_panics s'' w4 req username Hses) as (msg & w5 & Hjoin & _ & Ht).
    { right. by eexists. }
    exists msg. by rewrite Hjoin.
  - destruct (handleJoinRoom_panics s'' w4 req username Hses) as (msg & w5 & Hjoin & _ & Ht).
    { by left. }
    exists msg. by rewrite Hjoin.
Qed.

(** *** Persistence before the answer *)

Lemma persist_then_ack s' (w w1 w2 w' : World P) :
  persistLocked s' w1 = (None, s', w2) → trace w1 = trace w →
  disk w' = disk w2 →
  trace w' = (trace w2 ++ [WroteResponse StatusOK])%list →
  ∃ evs, trace w' = (trace w ++ CallPersistLocked :: evs ++ [WroteResponse StatusOK])%list
         ∧ (∀ st, WroteResponse st ∉ evs)
         ∧ (persistPath s' ≠ "" →
              CallSaveState (persistPath s') ∈ evs
              ∧ ∃ data, jsonMarshalIndent (snapshot s') = inr data
                        ∧ disk w' !! persistPath s' = Some data).
Proof.
  intros Hp Htr Hd Ht.
  apply persistLocked_post in Hp as (_ & _ & _ & _ & (evs & Hevs & Hno & Hsave) & Hfile & _).
  exists evs. split_and!.
  - rewrite Ht, Hevs, Htr. by rewrite <- app_assoc.
  - done.
  - intros Hpath. split; [by apply Hsave|]. rewrite Hd. by apply Hfile.
Qed.

(** C6, as the code has it.  [handleRegister], [handleLogin],
    [handleCreateRoom] and [handleJoinRoom] answer 200 only after
    [persistLocked] was called and returned nil, which with a path configured
    means [saveState] was called and the file holds the new state;
    [handleRefresh], which adds a session and changes nothing that is saved,
    answers 200 without calling [persistLocked]. *)
Theorem ack_follows_persist c s w resp s' w' :
  ServeHTTP c s w = (Wrote resp, s', w') → Status resp = StatusOK →
  if changes_persisted c then
    ∃ evs, trace w' = (trace w ++ CallPersistLocked :: evs ++ [WroteResponse StatusOK])%list
           ∧ (∀ st, WroteResponse st ∉ evs)
           ∧ (persistPath s' ≠ "" →
                CallSaveState (persistPath s') ∈ evs
                ∧ ∃ data, jsonMarshalIndent (snapshot s') = inr data
                          ∧ disk w' !! persistPath s' = Some data)
  else
    trace w' = (trace w ++ [WroteResponse StatusOK])%list
    ∧ disk w' = disk w ∧ snapshot s' = snapshot s.
Proof.
  intros H Hok. apply ServeHTTP_inv in H.
  destruct c as [r|r|r|r|r]; [destruct H as (resp0 & [= <-] & H)..|]; simpl.
  - apply handleRegister_cases in H
      as [(_ & _ & _ & _ & [(Hst & _)|[(Hst & _)|(Hst & _)]])
         |(? & ? & ? & ? & ? & w1 & w2 & err & _ & _ & _ & _ & _ & _ & _ & _ & _ & Htr & Hp & Hd & Ht & Hr)];
      try (rewrite Hst in Hok; done).
    destruct err; [by subst resp|]. rewrite Hok in Ht. by eapply persist_then_ack.
  - apply handleLogin_cases in H
      as [(_ & _ & _ & _ & [(Hst & _)|[(Hst & _)|(Hst & _)]])
         |(? & ? & ? & w1 & w2 & err & _ & _ & _ & _ & _ & Htr & Hp & Hd & Ht & Hr)];
      try (rewrite Hst in Hok; done).
    destruct err; [by subst resp|]. rewrite Hok in Ht. by eapply persist_then_ack.
  - apply handleRefresh_cases in H
      as (Hd & Ht & [(_ & _ & [(Hst & _)|[(Hst & _)|(Hst & _)]])
                    |(? & ? & ? & _ & _ & _ & -> & _)]);
      try (rewrite Hst in Hok; done).
    rewrite Hok in Ht. done.
  - apply handleCreateRoom_cases in H
      as [(_ & _ & _ & _ & [(Hst & _)|(Hst & _)])
         |(? & w2 & err & _ & _ & _ & Hp & Hd & Ht & Hr)];
      try (rewrite Hst in Hok; done).
    destruct err; [by subst resp|]. rewrite Hok in Ht. by eapply persist_then_ack.
  - apply handleJoinRoom_cases in H
      as [(resp0 & [= <-] & _ & _ & _ & _ & [(Hst & _)|[(Hst & _)|[(Hst & _)|(Hst & _)]]])
         |[(resp0 & ? & ? & ? & ? & w1 & w2 & err & [= <-] & _ & _ & _ & _ & _ & _ & _
            & Htr & Hp & Hd & Ht & Hr)
          |(? & ? & ? & [=] & _)]];
      try (rewrite Hst in Hok; done).
    destruct err; [by subst resp|]. rewrite Hok in Ht. by eapply persist_then_ack.
Qed.

(** *** Registration *)

Lemma blank_empty : blank "".
Proof. reflexivity. Qed.

(** C7, as the code has it.  [handleRegister] answers 400 (InvalidInput)
    whenever the username or the password is empty or white space only, or
    the username has a space character (U+0020) in it; it then leaves the
    server as it is (no user, no token), writes no file, does not call
    [persistLocked], and answers with an error text and no tokens. *)
Theorem register_invalid_input req s w :
  blank (rq_Username req) ∨ blank (rq_Password req)
  ∨ Go.Contains (rq_Username req) " " = true →
  ∃ msg w',
    handleRegister (post req) s w
      = ({| Status := StatusBadRequest; Payload := ErrorBody msg |}, s, w')
    ∧ failure_of_status StatusBadRequest = Some InvalidInput
    ∧ disk w' = disk w
    ∧ trace w' = (trace w ++ [WroteResponse StatusBadRequest])%list.
Proof.
  unfold blank, handleRegister. handler. intros H.
  case_decide as Hb.
  - by eexists _, _.
  - destruct H as [H|[H|H]]; [naive_solver..|].
    case_decide; simpl; rewrite H; simpl; by eexists _, _.
Qed.

(** A registration of a name that is taken, with a password that is not
    blank, answers 409 and changes nothing. *)
Lemma handleRegister_conflict req s w resp s' w' :
  is_Some (users s !! rq_Username req) → ¬ blank (rq_Password req) →
  ¬ blank (rq_Username req) → Go.Contains (rq_Username req) " " = false →
  handleRegister (post req) s w = (resp, s', w') →
  Status resp = StatusConflict ∧ s' = s ∧ disk w' = disk w
  ∧ trace w' = (trace w ++ [WroteResponse StatusConflict])%list.
Proof.
  intros [record Hu] Hp Hn Hc H.
  apply handleRegister_cases in H
    as [(-> & Hd & Ht & _ & [(_ & Hm)|[(_ & Hb)|(Hst & _)]])
       |(req' & ? & ? & ? & ? & ? & ? & ? & _ & Hdec & _ & _ & _ & Hnone & _)].
  - done.
  - destruct (Hb req eq_refl) as [?|[?|?]]; [done|done|congruence].
  - by rewrite Hst in Ht.
  - simpl in Hdec. simplify_eq.
Qed.

(** C8, as the code has it.  After a registration that answered 200 with
    a session token and a device token, registering the same username again
    answers 409 (Conflict) when the password of the second request is not
    blank, and 400 (InvalidInput) when it is: the password is checked before
    the user store is looked at.  Either way the server and the files stay as
    they are, [persistLocked] is not called, and the two tokens still resolve
    to the user, whose record is the one the first registration stored. *)
Theorem register_twice_conflict req s w req2 w2 s1 w1 tokens resp2 s2 w3 :
  handleRegister (post req) s w
    = ({| Status := StatusOK; Payload := RegisterBody tokens |}, s1, w1) →
  rq_Username req2 = rq_Username req →
  handleRegister (post req2) s1 w2 = (resp2, s2, w3) →
  Status resp2
  = (if decide (blank (rq_Password req2)) then StatusBadRequest else StatusConflict)
  ∧ failure_of_status (Status resp2)
    = Some (if decide (blank (rq_Password req2)) then InvalidInput else Conflict)
  ∧ s2 = s1 ∧ disk w3 = disk w2
  ∧ trace w3 = (trace w2 ++ [WroteResponse (Status resp2)])%list
  ∧ sessions s2 !! rr_SessionToken tokens = Some (rq_Username req)
  ∧ deviceBags s2 !! rr_DeviceToken tokens = Some (rq_Username req)
  ∧ ∃ record, users s2 !! rq_Username req = Some record
              ∧ Username record = rq_Username req
              ∧ Hash record = hashPassword (rq_Password req) (Salt record).
Proof.
  intros H1 Hname H2.
  apply handleRegister_cases in H1
    as [(_ & _ & _ & [(? & ?)|?] & _)
       |(req' & salt & dev & stok & dtok & ? & ? & err & _ & Hdec & Hn & _ & Hc
         & _ & _ & -> & _ & _ & _ & _ & _ & Hr)]; [done|done|].
  simpl in Hdec. simplify_eq. destruct err; [done|]. simplify_eq.
  assert (Hst : Status resp2
                = (if decide (blank (rq_Password req2)) then StatusBadRequest
                   else StatusConflict)
                ∧ s2 = registerUser s req' salt dev stok dtok
                ∧ disk w3 = disk w2
                ∧ trace w3 = (trace w2 ++ [WroteResponse (Status resp2)])%list).
  { apply handleRegister_cases in H2
      as [(-> & Hd & Ht & _ & [(_ & Hm)|[(Hst & Hb)|(Hst & req3 & Hdec & _ & Hpw)]])
         |(req3 & ? & ? & ? & ? & ? & ? & ? & _ & Hdec & _ & _ & _ & Hnone & _)].
    - done.
    - split_and!; [|done..]. rewrite Hst.
      destruct (Hb req2 eq_refl) as [Hu|[Hp|Hs]].
      + by rewrite Hname in Hu.
      + by rewrite decide_True.
      + rewrite Hname in Hs. congruence.
    - simpl in Hdec. injection Hdec as <-.
      split_and!; [|done..]. by rewrite Hst, decide_False.
    - simpl in Hdec. injection Hdec as <-.
      rewrite Hname in Hnone. simpl in Hnone. by rewrite lookup_insert_eq in Hnone. }
  destruct Hst as (Hst & -> & Hd & Ht). split_and!; try done.
  - rewrite Hst. by case_decide.
  - simpl. apply lookup_insert_eq.
  - simpl. apply lookup_insert_eq.
  - eexists. split; [apply lookup_insert_eq|done].
Qed.


(** *** Rooms *)

(** C9.  [handleCreateRoom] stores, under the ID [room-<n>] with [n] one
    more than the number of rooms, a room with that ID, the subnet
    [10.0.<n>.0/24], the MTU of the request or 1400 when it is 0, the
    transport of the request or [udp] when it is empty, the keepalive
    interval 15 and no members; the answer 200 carries the same ID, subnet,
    transport and MTU. *)
Theorem createRoom_assigns req s w :
  let n := Go.len (rooms s) + 1 in
  let r := handleCreateRoom (post req) s w in
  ∃ room,
    rooms (serverAfter r) = <["room-" ++ Go.itoa n := Some room]> (rooms s)
    ∧ ID room = "room-" ++ Go.itoa n
    ∧ OverlaySubnet room = "10.0." ++ Go.itoa n ++ ".0/24"
    ∧ MTU room = (if decide (cq_MTU req = 0) then 1400 else cq_MTU req)
    ∧ PreferredTransport room
      = (if decide (cq_PreferredTransport req = "") then TransportUDP
         else cq_PreferredTransport req)
    ∧ KeepaliveInterval room = 15
    ∧ Name room = cq_Name req ∧ Members room = Some ∅
    ∧ (Status (answer r) = StatusOK ∨ Status (answer r) = StatusInternalServerError)
    ∧ (Status (answer r) = StatusOK →
         Payload (answer r)
         = CreateRoomBody {| cr_RoomID := ID room; cr_OverlaySubnet := OverlaySubnet room;
                             cr_PreferredTransport := PreferredTransport room;
                             cr_MTU := MTU room |}).
Proof.
  intros n r. subst r.
  destruct (handleCreateRoom_post req s w) as (resp & w' & -> & Hresp & _).
  exists (newRoom s req). unfold serverAfter, answer. simpl.
  split_and!; try done.
  - destruct Hresp as [->|[msg ->]]; auto.
  - destruct Hresp as [->|[msg ->]]; done.
Qed.

(** C4, as the code has it.  A join that names a room ID which is not in
    the room registry answers 404 (NotFound) when the session token
    resolves, and 401 (Unauthorized) when it does not; the server and the
    files stay as they are. *)
Theorem joinRoom_missing_room req s w :
  rooms s !! jq_RoomID req = None →
  ∃ msg w',
    handleJoinRoom (post req) s w
      = (Wrote {| Status := if sessions s !! jq_SessionToken req is Some _
                            then StatusNotFound else StatusUnauthorized;
                  Payload := ErrorBody msg |}, s, w')
    ∧ disk w' = disk w.
Proof.
  intros Hroom. unfold handleJoinRoom. handler.
  destruct (sessions s !! jq_SessionToken req); simpl.
  - rewrite Hroom. simpl. by eexists _, _.
  - by eexists _, _.
Qed.

(** *** Device identifiers as refresh keys *)

(** A refresh with a key of [deviceBags] answers 200 with a session token
    that resolves to the user the key maps to. *)
Lemma handleRefresh_accepts s w token username :
  deviceBags s !! token = Some username →
  ∃ sessionToken w',
    handleRefresh (post {| fq_DeviceToken := token |}) s w
      = ({| Status := StatusOK;
            Payload := RefreshBody {| fr_SessionToken := sessionToken |} |},
         setSessions <[sessionToken := username]> s, w').
Proof.
  intros Hd. unfold handleRefresh. handler. rewrite Hd. simpl. by eexists _, _.
Qed.

(** C10, as the code has it.  [handleRegister] puts the device identifier
    of the request (or the one it generated) and the new device token into
    [deviceBags], both mapped to the username, and stores the identifier in
    the user's record; [seedDemoUser] does the same with [demo-device];
    and a refresh whose token is the device identifier of a user, while
    [deviceBags] maps that identifier to the user, answers 200 with a
    session token that resolves to the user. *)
Theorem device_identifier_refreshes :
  (∀ req s w tokens s' w',
     handleRegister (post req) s w
       = ({| Status := StatusOK; Payload := RegisterBody tokens |}, s', w') →
     ∃ record, users s' !! rq_Username req = Some record
               ∧ (rq_DeviceID req ≠ "" → Device record = rq_DeviceID req)
               ∧ deviceBags s' !! Device record = Some (rq_Username req)
               ∧ deviceBags s' !! rr_DeviceToken tokens = Some (rq_Username req))
  ∧ (∀ s w, ∃ record,
       users (seedDemoUser s w).1.2 !! "gamer" = Some record
       ∧ Device record = "demo-device"
       ∧ deviceBags (seedDemoUser s w).1.2 !! "demo-device" = Some "gamer")
  ∧ (∀ s w username record,
       users s !! username = Some record →
       deviceBags s !! Device record = Some username →
       ∃ sessionToken s' w',
         handleRefresh (post {| fq_DeviceToken := Device record |}) s w
           = ({| Status := StatusOK;
                 Payload := RefreshBody {| fr_SessionToken := sessionToken |} |}, s', w')
         ∧ sessions s' !! sessionToken = Some username).
Proof.
  split_and!.
  - intros req s w tokens s' w' H.
    apply handleRegister_cases in H
      as [(_ & _ & _ & [(? & ?)|?] & _)
         |(req' & salt & dev & stok & dtok & ? & ? & err & _ & Hdec & _ & _ & _
           & _ & Hdev & -> & _ & _ & _ & _ & _ & Hr)]; [done|done|].
    simpl in Hdec. simplify_eq. destruct err; [done|]. simplify_eq.
    eexists. split; [apply lookup_insert_eq|]. simpl. split_and!.
    + done.
    + destruct (decide (dtok = dev)) as [->|Hne].
      * apply lookup_insert_eq.
      * rewrite lookup_insert_ne by done. apply lookup_insert_eq.
    + apply lookup_insert_eq.
  - intros s w. destruct (seedDemoUser_post s w) as (salt & w' & -> & _). simpl.
    eexists. split; [apply lookup_insert_eq|]. split; [done|apply lookup_insert_eq].
  - intros s w username record _ Hd.
    destruct (handleRefresh_accepts s w _ _ Hd) as (sessionToken & w' & ->).
    eexists _, _, _. split; [done|]. simpl. apply lookup_insert_eq.
Qed.

(** ** Further properties of the server *)

(** *** Saving and loading *)

Lemma length_append (a b : string) :
  String.length (a ++ b) = (String.length a + String.length b)%nat.
Proof. induction a as [|c a IH]; simpl; [done|by rewrite IH]. Qed.

Lemma tmp_ne (path : string) : path ++ ".tmp" ≠ path.
Proof.
  intros H. assert (Hl := f_equal String.length H).
  rewrite length_append in Hl. simpl in Hl. lia.
Qed.

Lemma saveState_writes_path path state s w :
  answer (saveState path state s w) = None →
  ∃ data, jsonMarshalIndent state = inr data
          ∧ disk (worldAfter (saveState path state s w)) !! path = Some data.
Proof.
  unfold answer, worldAfter, saveState, MkdirAll, WriteFile, Rename. mrun.
  repeat (case_decide || case_match); simplify_eq/=; try done.
  repeat match goal with
         | H : <[_:=_]> _ !! _ = _ |- _ => rewrite lookup_insert_eq in H
         end; simplify_eq.
  intros _. eexists. split; [done|]. apply lookup_insert_eq.
Qed.

(** X1.  [saveState] that returns an error leaves the file at [path] as it
    was (a file that was absent stays absent), whichever step failed. *)
Theorem saveState_failure_keeps_file path state s w msg :
  answer (saveState path state s w) = Some msg →
  disk (worldAfter (saveState path state s w)) !! path = disk w !! path.
Proof.
  unfold answer, worldAfter, saveState, MkdirAll, WriteFile, Rename. mrun.
  pose proof (tmp_ne path) as Hne.
  repeat (case_decide || case_match); simplify_eq/=; try done.
  all: intros _; by rewrite lookup_insert_ne.
Qed.

(** X2.  [saveState] that returns nil has put the encoded state at [path],
    has left no temporary file, and has touched no other file. *)
Theorem saveState_success_writes path state s w :
  answer (saveState path state s w) = None →
  ∃ data, jsonMarshalIndent state = inr data
          ∧ disk (worldAfter (saveState path state s w))
            = <[path := data]> (delete (path ++ ".tmp") (disk w))
          ∧ disk (worldAfter (saveState path state s w)) !! path = Some data
          ∧ disk (worldAfter (saveState path state s w)) !! (path ++ ".tmp") = None.
Proof.
  unfold answer, worldAfter, saveState, MkdirAll, WriteFile, Rename. mrun.
  pose proof (tmp_ne path) as Hne.
  repeat (case_decide || case_match); simplify_eq/=; try done.
  repeat match goal with
         | H : <[_:=_]> _ !! _ = _ |- _ => rewrite lookup_insert_eq in H
         end; simplify_eq.
  intros _. eexists. split; [done|]. split_and!.
  - by rewrite delete_insert_eq.
  - apply lookup_insert_eq.
  - rewrite lookup_insert_ne by done. apply lookup_delete_eq.
Qed.

(** X3.  [loadState] changes neither the server nor the files, and with no
    file at [path] it returns the empty state and nil. *)
Theorem loadState_reads_only path s w :
  serverAfter (loadState path s w) = s
  ∧ disk (worldAfter (loadState path s w)) = disk w
  ∧ (faults w (ioOps w) = None → disk w !! path = None →
       answer (loadState path s w)
       = ({| Users := ∅; DeviceBags := ∅; Rooms := ∅ |}, None)).
Proof.
  unfold answer, serverAfter, worldAfter, loadState, ReadFile. mrun.
  split_and!.
  - repeat (case_decide || case_match); by simplify_eq/=.
  - repeat (case_decide || case_match); by simplify_eq/=.
  - intros Hf Hd. rewrite Hf. simpl. rewrite Hd. done.
Qed.

(** X4.  What [saveState] saved, [loadState] loads: after a [saveState]
    that returned nil, a [loadState] of the same path whose read does not
    fail, on files where that path was not written since, returns the saved
    state and nil, when [json.Unmarshal] reads back what [json.MarshalIndent]
    wrote. *)
Theorem saveState_loadState path state s w s2 w2 :
  answer (saveState path state s w) = None →
  json_faithful P state →
  disk w2 !! path = disk (worldAfter (saveState path state s w)) !! path →
  faults w2 (ioOps w2) = None →
  answer (loadState path s2 w2) = (state, None).
Proof.
  intros Hsave (data & Hm & Hu) Hd Hf.
  destruct (saveState_writes_path path state s w Hsave) as (data' & Hm' & Hfile).
  rewrite Hm in Hm'. injection Hm' as <-.
  rewrite Hfile in Hd.
  unfold answer, loadState, ReadFile. mrun.
  rewrite Hf. simpl. rewrite Hd. simpl. by rewrite Hu.
Qed.

(** *** Starting the server *)

(** X5.  A state file that cannot be read or cannot be decoded makes
    [NewServerWithStorage] return the error and no server, and no file is
    changed. *)
Theorem NewServerWithStorage_refuses path w :
  path ≠ "" →
  (∀ msg, faults w (ioOps w) = Some msg →
     answer' (NewServerWithStorage path w) = inl ("read state: " ++ msg))
  ∧ (∀ data msg, faults w (ioOps w) = None → disk w !! path = Some data →
       jsonUnmarshal data = inl msg →
       answer' (NewServerWithStorage path w) = inl ("decode state: " ++ msg))
  ∧ disk (NewServerWithStorage path w).2 = disk w.
Proof.
  intros Hpath. unfold answer', NewServerWithStorage, loadFromDisk, loadState, ReadFile, seedDemoUser.
  handler. case_decide; [|done]. split_and!.
  - intros msg ->. done.
  - intros data msg -> Hd Hj. simpl. rewrite Hd. simpl. by rewrite Hj.
  - repeat (case_decide || case_match); by simplify_eq/=.
Qed.

(** X6.  With the empty path, or with no file at the path, the server
    starts as the seeded one: the one user [gamer] with the password
    [password123] and the device [demo-device], no session and no room;
    nothing is written, so the file is still absent. *)
Theorem NewServerWithStorage_fresh path w :
  path = "" ∨ (faults w (ioOps w) = None ∧ disk w !! path = None) →
  ∃ salt w',
    NewServerWithStorage path w = (inr (seeded path salt), w')
    ∧ credential (seeded path salt) "gamer" "password123"
    ∧ disk w' = disk w ∧ trace w' = trace w.
Proof.
  intros H. unfold NewServerWithStorage, loadFromDisk, loadState, ReadFile, seedDemoUser.
  handler. case_decide as Hp.
  - destruct H as [->|[Hf Hd]]; [done|]. rewrite Hf. simpl. rewrite Hd. simpl.
    eexists _, _. split; [reflexivity|]. split_and!; try done.
    eexists. split; [apply lookup_insert_eq|done].
  - subst path. eexists _, _. split; [reflexivity|]. split_and!; try done.
    eexists. split; [apply lookup_insert_eq|done].
Qed.

(** X7.  A state file without users is not adopted at all: the server
    starts as the seeded one, and the rooms and device bindings the file
    holds are dropped. *)
Theorem NewServerWithStorage_no_users_drops_file path w data state :
  path ≠ "" → faults w (ioOps w) = None → disk w !! path = Some data →
  jsonUnmarshal data = inr state → Users state = ∅ →
  ∃ salt w', NewServerWithStorage path w = (inr (seeded path salt), w').
Proof.
  intros Hpath Hf Hd Hj Hu.
  unfold NewServerWithStorage, loadFromDisk, loadState, ReadFile, seedDemoUser.
  handler. case_decide; [|done]. rewrite Hf. simpl. rewrite Hd. simpl. rewrite Hj. simpl.
  case_decide as Hz; [|by rewrite Hu in Hz]. simpl. by eexists _, _.
Qed.

(** *** What every route does with a request *)

(** X8.  Every route answers a request whose method is not POST with 405
    and no body, before it looks at the body or the server: nothing
    changes. *)
Theorem ServeHTTP_method_not_allowed c s w :
  callMethod c ≠ MethodPost →
  ∃ w', ServeHTTP c s w
        = (Wrote {| Status := StatusMethodNotAllowed; Payload := NoBody |}, s, w')
        ∧ disk w' = disk w
        ∧ trace w' = (trace w ++ [WroteResponse StatusMethodNotAllowed])%list.
Proof.
  intros Hm.
  destruct c as [r|r|r|r|r]; simpl in *;
    unfold handleRegister, handleLogin, handleRefresh, handleCreateRoom, handleJoinRoom;
    handler; (case_decide; [|done]); by eexists.
Qed.

(** X9.  Every route answers a POST whose body does not decode with 400
    and the decoder's message: nothing changes. *)
Theorem ServeHTTP_bad_body c s w msg :
  callMethod c = MethodPost → callDecodeError c = Some msg →
  ∃ w', ServeHTTP c s w
        = (Wrote {| Status := StatusBadRequest; Payload := ErrorBody msg |}, s, w')
        ∧ disk w' = disk w
        ∧ trace w' = (trace w ++ [WroteResponse StatusBadRequest])%list.
Proof.
  intros Hm Hd.
  destruct c as [r|r|r|r|r]; simpl in *;
    unfold handleRegister, handleLogin, handleRefresh, handleCreateRoom, handleJoinRoom;
    handler; (case_decide; [done|]);
    destruct (Decoded r); simplify_eq/=; by eexists.
Qed.

(** X10.  An answer other than 200 and 500 means nothing happened: the
    server and the files are as before, [persistLocked] was not called, and
    the body is an error text or empty. *)
Theorem ServeHTTP_refusal_changes_nothing c s w resp s' w' :
  ServeHTTP c s w = (Wrote resp, s', w') →
  Status resp ≠ StatusOK → Status resp ≠ StatusInternalServerError →
  s' = s ∧ disk w' = disk w
  ∧ trace w' = (trace w ++ [WroteResponse (Status resp)])%list
  ∧ ((∃ msg, Payload resp = ErrorBody msg) ∨ Payload resp = NoBody).
Proof.
  intros H Hok Herr. apply ServeHTTP_inv in H.
  destruct c as [r|r|r|r|r]; [destruct H as (resp0 & [= <-] & H)..|].
  - apply handleRegister_cases in H
      as [(-> & Hd & Ht & Hb & _)
         |(? & ? & ? & ? & ? & ? & ? & err & _ & _ & _ & _ & _ & _ & _ & _ & _ & _ & _ & _ & _ & Hr)];
      [done|]. destruct err; subst resp; done.
  - apply handleLogin_cases in H
      as [(-> & Hd & Ht & Hb & _)
         |(? & ? & ? & ? & ? & err & _ & _ & _ & _ & _ & _ & _ & _ & _ & Hr)];
      [done|]. destruct err; subst resp; done.
  - apply handleRefresh_cases in H
      as (Hd & Ht & [(-> & Hb & _)|(? & ? & ? & _ & _ & _ & _ & ->)]); done.
  - apply handleCreateRoom_cases in H
      as [(-> & Hd & Ht & Hb & _)|(? & ? & err & _ & _ & _ & _ & _ & _ & Hr)];
      [done|]. destruct err; subst resp; done.
  - apply handleJoinRoom_cases in H
      as [(resp0 & [= <-] & -> & Hd & Ht & Hb & _)
         |[(resp0 & ? & ? & ? & ? & ? & ? & err & [= <-] & _ & _ & _ & _ & _ & _ & _ & _
            & _ & _ & _ & Hr)
          |(? & ? & ? & [=] & _)]];
      [done|]. destruct err; [by subst resp|]. destruct Hr as (? & ->). done.
Qed.

(** X11.  The routes answer with 200, 400, 401, 404, 405, 409 or 500 and
    with nothing else; in particular no request is ever answered 403. *)
Theorem ServeHTTP_statuses c s w resp s' w' :
  ServeHTTP c s w = (Wrote resp, s', w') →
  Status resp ∈ [StatusOK; StatusBadRequest; StatusUnauthorized; StatusNotFound;
                 StatusMethodNotAllowed; StatusConflict; StatusInternalServerError]
  ∧ Status resp ≠ StatusForbidden.
Proof.
  intros H.
  assert (Hin : Status resp ∈ [StatusOK; StatusBadRequest; StatusUnauthorized;
                               StatusNotFound; StatusMethodNotAllowed; StatusConflict;
                               StatusInternalServerError]).
  { apply ServeHTTP_inv in H.
    destruct c as [r|r|r|r|r]; [destruct H as (resp0 & [= <-] & H)..|].
    - apply handleRegister_cases in H
        as [(_ & _ & _ & _ & [(-> & _)|[(-> & _)|(-> & _)]])
           |(? & ? & ? & ? & ? & ? & ? & err & _ & _ & _ & _ & _ & _ & _ & _ & _ & _ & _ & _ & _ & Hr)];
        [set_solver..|]. destruct err; subst resp; set_solver.
    - apply handleLogin_cases in H
        as [(_ & _ & _ & _ & [(-> & _)|[(-> & _)|(-> & _)]])
           |(? & ? & ? & ? & ? & err & _ & _ & _ & _ & _ & _ & _ & _ & _ & Hr)];
        [set_solver..|]. destruct err; subst resp; set_solver.
    - apply handleRefresh_cases in H
        as (_ & _ & [(_ & _ & [(-> & _)|[(-> & _)|(-> & _)]])
                    |(? & ? & ? & _ & _ & _ & _ & ->)]); set_solver.
    - apply handleCreateRoom_cases in H
        as [(_ & _ & _ & _ & [(-> & _)|(-> & _)])
           |(? & ? & err & _ & _ & _ & _ & _ & _ & Hr)];
        [set_solver..|]. destruct err; subst resp; set_solver.
    - apply handleJoinRoom_cases in H
        as [(resp0 & [= <-] & _ & _ & _ & _ & [(-> & _)|[(-> & _)|[(-> & _)|(-> & _)]]])
           |[(resp0 & ? & ? & ? & ? & ? & ? & err & [= <-] & _ & _ & _ & _ & _ & _ & _ & _
              & _ & _ & _ & Hr)
            |(? & ? & ? & [=] & _)]];
        [set_solver..|]. destruct err; [subst resp; set_solver|].
      destruct Hr as (? & ->). set_solver. }
  split; [done|]. intros Heq. rewrite Heq in Hin.
  repeat (apply elem_of_cons in Hin as [Hin|Hin]; [done|]). by apply elem_of_nil in Hin.
Qed.

(** X12.  A server without a persistence path never touches the files and
    never answers 500, however the request ends. *)
Theorem ServeHTTP_in_memory c s w o s' w' :
  persistPath s = "" → ServeHTTP c s w = (o, s', w') →
  disk w' = disk w
  ∧ (∀ resp, o = Wrote resp → Status resp ≠ StatusInternalServerError)
  ∧ persistPath s' = "".
Proof.
  intros Hpath H.
  pose proof (ServeHTTP_users _ _ _ _ _ _ H) as (_ & Hp'). rewrite Hpath in Hp'.
  assert (Hpl : ∀ w1 w2 err, persistLocked s' w1 = (err, s', w2) →
                             err = None ∧ disk w2 = disk w1).
  { intros w1 w2 err Hp. apply persistLocked_post in Hp as (_ & _ & _ & _ & _ & _ & Hnil).
    by apply Hnil. }
  apply ServeHTTP_inv in H.
  split_and!; [| |done].
  - destruct c as [r|r|r|r|r]; [destruct H as (resp0 & _ & H)..|].
    + apply handleRegister_cases in H
        as [(_ & Hd & _)
           |(? & ? & ? & ? & ? & ? & ? & err & _ & _ & _ & _ & _ & _ & _ & _ & Hd1 & _ & Hp & Hd & _)];
        [done|]. apply Hpl in Hp as (_ & Hd2). congruence.
    + apply handleLogin_cases in H
        as [(_ & Hd & _)
           |(? & ? & ? & ? & ? & err & _ & _ & _ & _ & Hd1 & _ & Hp & Hd & _)];
        [done|]. apply Hpl in Hp as (_ & Hd2). congruence.
    + by apply handleRefresh_cases in H as (Hd & _).
    + apply handleCreateRoom_cases in H
        as [(_ & Hd & _)|(? & ? & err & _ & _ & _ & Hp & Hd & _)];
        [done|]. apply Hpl in Hp as (_ & Hd2). congruence.
    + apply handleJoinRoom_cases in H
        as [(? & _ & _ & Hd & _)
           |[(? & ? & ? & ? & ? & ? & ? & err & _ & _ & _ & _ & _ & _ & _ & Hd1 & _ & Hp & Hd & _)
            |(? & ? & ? & _ & _ & _ & _ & _ & _ & Hd & _)]];
        [done| |done]. apply Hpl in Hp as (_ & Hd2). congruence.
  - intros resp ->.
    destruct c as [r|r|r|r|r]; [destruct H as (resp0 & [= <-] & H)..|].
    + apply handleRegister_cases in H
        as [(_ & _ & _ & _ & [(-> & _)|[(-> & _)|(-> & _)]])
           |(? & ? & ? & ? & ? & ? & ? & err & _ & _ & _ & _ & _ & _ & _ & _ & _ & _ & Hp & _ & _ & Hr)];
        [done..|]. apply Hpl in Hp as (-> & _). by subst resp.
    + apply handleLogin_cases in H
        as [(_ & _ & _ & _ & [(-> & _)|[(-> & _)|(-> & _)]])
           |(? & ? & ? & ? & ? & err & _ & _ & _ & _ & _ & _ & Hp & _ & _ & Hr)];
        [done..|]. apply Hpl in Hp as (-> & _). by subst resp.
    + apply handleRefresh_cases in H
        as (_ & _ & [(_ & _ & [(-> & _)|[(-> & _)|(-> & _)]])
                    |(? & ? & ? & _ & _ & _ & _ & ->)]); done.
    + apply handleCreateRoom_cases in H
        as [(_ & _ & _ & _ & [(-> & _)|(-> & _)])
           |(? & ? & err & _ & _ & _ & Hp & _ & _ & Hr)];
        [done..|]. apply Hpl in Hp as (-> & _). by subst resp.
    + apply handleJoinRoom_cases in H
        as [(resp0 & [= <-] & _ & _ & _ & _ & [(-> & _)|[(-> & _)|[(-> & _)|(-> & _)]]])
           |[(resp0 & ? & ? & ? & ? & ? & ? & err & [= <-] & _ & _ & _ & _ & _ & _ & _ & _
              & Hp & _ & _ & Hr)
            |(? & ? & ? & [=] & _)]];
        [done..|]. apply Hpl in Hp as (-> & _). destruct Hr as (? & ->). done.
Qed.

(** *** Credentials and tokens *)

(** X13.  A login with an unknown username and a login with a wrong
    password get the same answer, 401 with the text [invalid credentials];
    no token is issued and nothing changes. *)
Theorem handleLogin_rejects req s w :
  ¬ credential s (lq_Username req) (lq_Password req) →
  ∃ w', handleLogin (post req) s w
        = ({| Status := StatusUnauthorized; Payload := ErrorBody "invalid credentials" |},
           s, w')
        ∧ disk w' = disk w
        ∧ trace w' = (trace w ++ [WroteResponse StatusUnauthorized])%list.
Proof.
  intros Hc. unfold handleLogin, credential in *. handler.
  destruct (users s !! lq_Username req) as [record|] eqn:Hu; simpl; [|by eexists].
  case_decide as Hh; [by eexists|]. destruct Hc. by exists record.
Qed.

(** X14.  A user who registered logs in: after a registration that
    answered 200, a login with the same username and password on a healthy
    file system answers 200 with a session token that resolves to the user
    and a device token bound to the user. *)
Theorem register_then_login req s w resp s1 w1 w2 :
  handleRegister (post req) s w = (resp, s1, w1) → Status resp = StatusOK →
  storage_healthy w2 → marshal_total P →
  ∃ lr s2 w3,
    handleLogin (post {| lq_Username := rq_Username req;
                         lq_Password := rq_Password req |}) s1 w2
      = ({| Status := StatusOK; Payload := LoginBody lr |}, s2, w3)
    ∧ sessions s2 !! lr_SessionToken lr = Some (rq_Username req)
    ∧ deviceBags s2 !! lr_DeviceToken lr = Some (rq_Username req).
Proof.
  intros Hreg Hok Hw Hm.
  pose proof (handleRegister_credential _ _ _ _ _ _ Hreg Hok) as Hc.
  destruct (handleLogin_accepts s1 w2 _ _ Hc Hw Hm) as (st & dt & w3 & Hl & _).
  eexists _, _, _. split; [exact Hl|]. simpl. split.
  - apply lookup_insert_eq.
  - apply lookup_insert_eq.
Qed.

(** X15.  No request deletes anything: every user record stays as it is,
    every session token, device binding and room ID that exists before a
    request exists after it, and the persistence path does not change. *)
Theorem ServeHTTP_keeps c s w o s' w' :
  ServeHTTP c s w = (o, s', w') →
  users s ⊆ users s'
  ∧ dom (sessions s) ⊆ dom (sessions s')
  ∧ dom (deviceBags s) ⊆ dom (deviceBags s')
  ∧ dom (rooms s) ⊆ dom (rooms s')
  ∧ persistPath s' = persistPath s.
Proof.
  intros H. pose proof (ServeHTTP_users _ _ _ _ _ _ H) as (Hu & Hp).
  apply ServeHTTP_inv in H.
  split; [done|]. split_and!; [| | |done];
  (destruct c as [r|r|r|r|r]; [destruct H as (resp0 & _ & H)..|]).
  all: try (apply handleRegister_cases in H
      as [(-> & _)|(? & ? & ? & ? & ? & ? & ? & ? & _ & _ & _ & _ & _ & _ & _ & -> & _)];
      [done|]; simpl; rewrite ?dom_insert_L; set_solver).
  all: try (apply handleLogin_cases in H
      as [(-> & _)|(? & ? & ? & ? & ? & ? & _ & _ & _ & -> & _)];
      [done|]; simpl; rewrite ?dom_insert_L; set_solver).
  all: try (apply handleRefresh_cases in H
      as (_ & _ & [(-> & _)|(? & ? & ? & _ & _ & _ & -> & _)]);
      [done|]; simpl; rewrite ?dom_insert_L; set_solver).
  all: try (apply handleCreateRoom_cases in H
      as [(-> & _)|(? & ? & ? & _ & _ & -> & _)];
      [done|]; simpl; rewrite ?dom_insert_L; set_solver).
  all: try (apply handleJoinRoom_cases in H
      as [(? & _ & -> & _)
         |[(? & ? & ? & ? & ? & ? & ? & ? & _ & _ & _ & _ & _ & _ & -> & _)
          |(? & ? & ? & _ & _ & _ & _ & _ & -> & _)]];
      [done| |done]; simpl; rewrite ?dom_insert_L; set_solver).
Qed.

(** X16.  A registration whose save fails is answered 500 and is not
    undone: the user is registered with the password given, and the same
    registration sent again is answered 409. *)
Theorem register_failed_save_not_rolled_back req s w resp s1 w1 :
  handleRegister (post req) s w = (resp, s1, w1) →
  Status resp = StatusInternalServerError →
  users s !! rq_Username req = None
  ∧ credential s1 (rq_Username req) (rq_Password req)
  ∧ ∀ w2, Status (answer (handleRegister (post req) s1 w2)) = StatusConflict.
Proof.
  intros H Hst.
  apply handleRegister_cases in H
    as [(_ & _ & _ & _ & [(Hs & _)|[(Hs & _)|(Hs & _)]])
       |(req' & salt & dev & stok & dtok & ? & ? & err & _ & Hdec & Hn & Hpw & Hc
         & Hnone & _ & -> & _)];
    try (rewrite Hs in Hst; done).
  simpl in Hdec. simplify_eq. split; [done|]. split.
  - eexists. split; [apply lookup_insert_eq|done].
  - intros w2. destruct (handleRegister (post req') _ w2) as [[resp2 s2] w3] eqn:H2.
    eapply handleRegister_conflict in H2 as (Hs2 & _); try done.
    simpl. rewrite lookup_insert_eq. by eexists.
Qed.

(** X17.  A request keeps the tokens and the room members bound to users
    that exist: when every session token, device binding and room member of
    the server names a user of the server, the same holds after the
    request. *)
Theorem ServeHTTP_tokens_resolve c s w o s' w' :
  tokens_resolve s → ServeHTTP c s w = (o, s', w') → tokens_resolve s'.
Proof.
  intros (Hs & Hd & Hr) H. apply ServeHTTP_inv in H.
  destruct c as [r|r|r|r|r]; [destruct H as (resp0 & _ & H)..|].
  - apply handleRegister_cases in H
      as [(-> & _)|(req & ? & dev & stok & dtok & ? & ? & ? & _ & _ & _ & _ & _ & Hn & _ & -> & _)];
      [done|].
    assert (Hmono : ∀ u, is_Some (users s !! u) →
              is_Some (<[rq_Username req := {| Username := rq_Username req; Salt := x;
                          Hash := hashPassword (rq_Password req) x; Device := dev |}]>
                         (users s) !! u)).
    { intros u Hu. destruct (decide (rq_Username req = u)) as [->|Hne].
      - rewrite lookup_insert_eq. by eexists.
      - by rewrite lookup_insert_ne. }
    assert (Hnew : is_Some (<[rq_Username req := {| Username := rq_Username req; Salt := x;
                          Hash := hashPassword (rq_Password req) x; Device := dev |}]>
                         (users s) !! rq_Username req)).
    { rewrite lookup_insert_eq. by eexists. }
    split_and!; simpl; set (U := <[rq_Username req := _]> (users s)) in *.
    + intros token u. rewrite lookup_insert. case_decide; [by intros [= <-]|].
      intros ?. eapply Hmono; eauto.
    + intros token u. rewrite !lookup_insert.
      repeat case_decide; try (by intros [= <-]). intros ?. eapply Hmono; eauto.
    + intros ?????? Hm ?. eapply Hmono, Hr; done.
  - apply handleLogin_cases in H
      as [(-> & _)|(req & stok & dtok & ? & ? & ? & _ & _ & (record & Hu & _) & -> & _)];
      [done|]. split_and!; simpl.
    + intros token u. rewrite lookup_insert. case_decide; [intros [= <-]; by eexists|]. eauto.
    + intros token u. rewrite lookup_insert. case_decide; [intros [= <-]; by eexists|]. eauto.
    + done.
  - apply handleRefresh_cases in H
      as (_ & _ & [(-> & _)|(req & u0 & stok & _ & _ & Hb & -> & _)]); [done|].
    split_and!; simpl; [|done|done].
    intros token u. rewrite lookup_insert. case_decide; [intros [= <-]; eauto|]. eauto.
  - apply handleCreateRoom_cases in H
      as [(-> & _)|(req & ? & ? & _ & _ & -> & _)]; [done|].
    split_and!; simpl; [done|done|].
    intros RoomID room members DeviceID u. rewrite lookup_insert.
    case_decide; [intros [= <-] [= <-]; by rewrite lookup_empty|]. eauto.
  - apply handleJoinRoom_cases in H
      as [(? & _ & -> & _)
         |[(? & req & u0 & room0 & members0 & ? & ? & ? & _ & _ & _ & Hses & Hroom & Hmem
            & -> & _)
          |(? & ? & ? & _ & _ & _ & _ & _ & -> & _)]]; [done| |done].
    split_and!; simpl; [done|done|].
    intros RoomID room members DeviceID u. rewrite lookup_insert.
    case_decide; [|eauto]. intros [= <-] [= <-]. rewrite lookup_insert.
    case_decide; [intros [= <-]; eauto|]. eauto.
Qed.

(** *** Rooms *)

(** X18.  A join that answers 200 binds the device of the request to the
    user of the session (a device that was bound is re-bound), leaves every
    other field of the room, every other room, the users and the tokens as
    they were, and answers with the virtual IP [10.0.<m+1>.<m+2>] for [m]
    members before the join; the room had a member map. *)
Theorem handleJoinRoom_effect req s w resp s' w' :
  handleJoinRoom (post req) s w = (Wrote resp, s', w') → Status resp = StatusOK →
  ∃ username room members jr,
    sessions s !! jq_SessionToken req = Some username
    ∧ rooms s !! jq_RoomID req = Some (Some room)
    ∧ Members room = Some members
    ∧ rooms s' !! jq_RoomID req
      = Some (Some {| ID := ID room; Name := Name room;
                      PreferredTransport := PreferredTransport room; MTU := MTU room;
                      OverlaySubnet := OverlaySubnet room;
                      KeepaliveInterval := KeepaliveInterval room;
                      Members := Some (<[jq_DeviceID req := username]> members) |})
    ∧ (∀ k, k ≠ jq_RoomID req → rooms s' !! k = rooms s !! k)
    ∧ users s' = users s ∧ sessions s' = sessions s ∧ deviceBags s' = deviceBags s
    ∧ Payload resp = JoinRoomBody jr
    ∧ jr_VirtualIP jr = "10.0." ++ Go.itoa (Go.len members + 1) ++ "."
                          ++ Go.itoa (Go.len members + 2).
Proof.
  intros H Hok.
  apply handleJoinRoom_cases in H
    as [(resp0 & [= <-] & _ & _ & _ & _ & [(Hs & _)|[(Hs & _)|[(Hs & _)|(Hs & _)]]])
       |[(resp0 & req' & u & room & members & ? & ? & err & [= <-] & _ & Hdec & Hses & Hroom
          & Hmem & -> & _ & _ & _ & _ & _ & Hr)
        |(? & ? & ? & [=] & _)]];
    try (rewrite Hs in Hok; done).
  simpl in Hdec. simplify_eq. destruct err; [by subst resp|]. destruct Hr as (key & ->).
  eexists u, room, members, _. split_and!; try done.
  - simpl. apply lookup_insert_eq.
  - intros k Hk. simpl. by rewrite lookup_insert_ne.
Qed.

(** X19.  A device that joins a room it is already a member of does not
    change the member count, so the next join of that room, by any device,
    is given the same virtual IP. *)
Theorem rejoin_repeats_virtual_ip req s w resp s' w' req2 w2 resp2 s2 w3 room members
    user0 jr jr2 :
  rooms s !! jq_RoomID req = Some (Some room) →
  Members room = Some members →
  members !! jq_DeviceID req = Some user0 →
  handleJoinRoom (post req) s w = (Wrote resp, s', w') →
  resp = {| Status := StatusOK; Payload := JoinRoomBody jr |} →
  jq_RoomID req2 = jq_RoomID req →
  handleJoinRoom (post req2) s' w2 = (Wrote resp2, s2, w3) →
  resp2 = {| Status := StatusOK; Payload := JoinRoomBody jr2 |} →
  jr_VirtualIP jr2 = jr_VirtualIP jr.
Proof.
  intros Hroom Hmembers Hmem H1 Hr1 Hid H2 Hr2.
  apply handleJoinRoom_cases in H1
    as [(resp0 & [= <-] & _ & _ & _ & [(? & Hb)|Hb] & _)
       |[(resp0 & req' & u & room' & members' & ? & ? & err & [= <-] & _ & Hdec & Hses
          & Hroom' & Hmembers' & Hs' & _ & _ & _ & _ & _ & Hr)
        |(? & ? & ? & [=] & _)]];
    [by subst resp..|].
  simpl in Hdec. injection Hdec as <-.
  rewrite Hroom in Hroom'. injection Hroom' as <-.
  rewrite Hmembers in Hmembers'. injection Hmembers' as <-.
  destruct err; [by subst resp|]. destruct Hr as (key & Hr). rewrite Hr1 in Hr.
  injection Hr as ->.
  apply handleJoinRoom_cases in H2
    as [(resp0 & [= <-] & _ & _ & _ & [(? & Hb)|Hb] & _)
       |[(resp0 & req2' & u2 & room2 & members2 & ? & ? & err & [= <-] & _ & Hdec2 & Hses2
          & Hroom2 & Hmembers2 & _ & _ & _ & _ & _ & _ & Hr)
        |(? & ? & ? & [=] & _)]];
    [by subst resp2..|].
  simpl in Hdec2. injection Hdec2 as <-.
  destruct err; [by subst resp2|]. destruct Hr as (key2 & Hr). rewrite Hr2 in Hr.
  injection Hr as ->.
  rewrite Hs', Hid in Hroom2. simpl in Hroom2. rewrite lookup_insert_eq in Hroom2.
  injection Hroom2 as <-. simpl in Hmembers2. injection Hmembers2 as <-. simpl.
  assert (Hlen : Go.len (<[jq_DeviceID req := u]> members) = Go.len members).
  { unfold Go.len. f_equal. rewrite <- (insert_delete_id members _ _ Hmem) at 2.
    rewrite <- insert_delete_eq.
    rewrite !map_size_insert_None by apply lookup_delete_eq. done. }
  by rewrite Hlen.
Qed.

Lemma to_int_proper (z : Z) : Z.to_int z ≠ Decimal.Pos Decimal.Nil ∧ Z.to_int z ≠ Decimal.Neg Decimal.Nil.
Proof.
  destruct z as [|p|p]; simpl; split; try discriminate.
  - intros [= H]. by apply (Unsigned.to_uint_nonnil p).
  - intros [= H]. by apply (Unsigned.to_uint_nonnil p).
Qed.

(** [%d] writes different numbers differently. *)
Lemma itoa_inj (a b : Z) : Go.itoa a = Go.itoa b → a = b.
Proof.
  unfold Go.itoa. intros H.
  apply DecimalZ.to_int_inj.
  destruct (to_int_proper a) as (Ha1 & Ha2), (to_int_proper b) as (Hb1 & Hb2).
  pose proof (NilZero.isi _ Ha1 Ha2) as Ea. pose proof (NilZero.isi _ Hb1 Hb2) as Eb.
  rewrite H in Ea. rewrite Ea in Eb. by injection Eb.
Qed.

Lemma append_inj_r (a b c : string) : a ++ c = b ++ c → a = b.
Proof.
  revert b. induction a as [|x a IH]; intros [|y b] H.
  - done.
  - assert (Hl := f_equal String.length H). rewrite !length_append in Hl. simpl in Hl. lia.
  - assert (Hl := f_equal String.length H). rewrite !length_append in Hl. simpl in Hl. lia.
  - change (String x (a ++ c) = String y (b ++ c)) in H.
    injection H as -> H. f_equal. by apply IH.
Qed.

Lemma roomKey_inj (a b : Z) : roomKey a = roomKey b → a = b.
Proof. unfold roomKey. intros H. apply itoa_inj. by simplify_eq/=. Qed.

Lemma roomSubnet_inj (a b : Z) : roomSubnet a = roomSubnet b → a = b.
Proof.
  unfold roomSubnet. intros H. apply itoa_inj.
  apply (append_inj_r _ _ ".0/24"). by simplify_eq/=.
Qed.

Lemma fresh_room_key req s :
  rooms_numbered s → rooms s !! ID (newRoom s req) = None.
Proof.
  intros Hnum.
  destruct (rooms s !! ID (newRoom s req)) as [ptr|] eqn:Hk; [|done].
  destruct (Hnum _ _ Hk) as (n & Hn & Heq & _).
  apply roomKey_inj in Heq. lia.
Qed.

Lemma createRoom_keeps_numbered req s :
  rooms_numbered s →
  rooms_numbered (setRooms <[ID (newRoom s req) := Some (newRoom s req)]> s).
Proof.
  intros Hnum. pose proof (fresh_room_key req s Hnum) as Hfresh.
  intros k ptr. simpl. unfold Go.len. rewrite map_size_insert_None by done.
  rewrite lookup_insert. case_decide as Hk.
  - intros [= <-]. exists (Go.len (rooms s) + 1). unfold Go.len in *. subst k.
    split_and!; try done; [lia..|]. by intros room [= <-].
  - intros Hr. destruct (Hnum _ _ Hr) as (n & Hn & ? & ?).
    exists n. unfold Go.len in *. split_and!; try done; lia.
Qed.

Lemma seeded_rooms_numbered path salt : rooms_numbered (seeded path salt).
Proof. intros k ptr Hk. simpl in Hk. by rewrite lookup_empty in Hk. Qed.

Lemma seeded_tokens_resolve path salt : tokens_resolve (seeded path salt).
Proof.
  split_and!; simpl.
  - intros ??. by rewrite lookup_empty.
  - intros token u [_ <-]%lookup_singleton_Some. rewrite lookup_singleton_eq. by eexists.
  - intros ?????. by rewrite lookup_empty.
Qed.

(** X20.  On a server whose rooms are numbered, the ID [handleCreateRoom]
    assigns is not in use: a creation adds a room and replaces none. *)
Theorem createRoom_fresh_id req s w :
  rooms_numbered s →
  rooms s !! ID (newRoom s req) = None
  ∧ Go.len (rooms (serverAfter (handleCreateRoom (post req) s w))) = Go.len (rooms s) + 1.
Proof.
  intros Hnum. pose proof (fresh_room_key req s Hnum) as Hfresh.
  split; [done|].
  destruct (handleCreateRoom_post req s w) as (resp & w' & -> & _).
  unfold serverAfter, Go.len. simpl. rewrite map_size_insert_None by done. lia.
Qed.

(** X21.  Requests keep the rooms numbered: when the rooms of the server
    are room-1 to room-n, each with its own ID and the subnet 10.0.i.0/24,
    they are so after any request. *)
Theorem ServeHTTP_rooms_numbered c s w o s' w' :
  rooms_numbered s → ServeHTTP c s w = (o, s', w') → rooms_numbered s'.
Proof.
  intros Hnum H. apply ServeHTTP_inv in H.
  destruct c as [r|r|r|r|r]; [destruct H as (resp0 & _ & H)..|].
  - apply handleRegister_cases in H
      as [(-> & _)|(? & ? & ? & ? & ? & ? & ? & ? & _ & _ & _ & _ & _ & _ & _ & -> & _)]; done.
  - apply handleLogin_cases in H
      as [(-> & _)|(? & ? & ? & ? & ? & ? & _ & _ & _ & -> & _)]; done.
  - apply handleRefresh_cases in H
      as (_ & _ & [(-> & _)|(? & ? & ? & _ & _ & _ & -> & _)]); done.
  - apply handleCreateRoom_cases in H
      as [(-> & _)|(req & ? & ? & _ & _ & -> & _)]; [done|].
    by apply createRoom_keeps_numbered.
  - apply handleJoinRoom_cases in H
      as [(? & _ & -> & _)
         |[(? & req & u & room0 & members0 & ? & ? & ? & _ & _ & _ & _ & Hroom & Hmem
            & -> & _)
          |(? & ? & ? & _ & _ & _ & _ & _ & -> & _)]]; [done| |done].
    intros k ptr. simpl.
    assert (Hsz : size (<[jq_RoomID req :=
                            Some (joinedRoom room0 members0 (jq_DeviceID req) u)]> (rooms s))
                  = size (rooms s)).
    { rewrite <- (insert_delete_id (rooms s) _ _ Hroom) at 2.
      rewrite <- insert_delete_eq.
      rewrite !map_size_insert_None by apply lookup_delete_eq. done. }
    unfold Go.len. rewrite Hsz. rewrite lookup_insert. case_decide as Hk.
    + intros [= <-]. subst k. destruct (Hnum _ _ Hroom) as (n & Hn & ? & Hrec).
      exists n. split; [exact Hn|]. split; [done|].
      intros room [= <-]. simpl. by apply Hrec.
    + intros Hr. by apply Hnum in Hr.
Qed.

(** X22.  On a server whose rooms are numbered, two rooms have different
    overlay subnets. *)
Theorem rooms_numbered_distinct_subnets s k1 k2 room1 room2 :
  rooms_numbered s →
  rooms s !! k1 = Some (Some room1) → rooms s !! k2 = Some (Some room2) → k1 ≠ k2 →
  OverlaySubnet room1 ≠ OverlaySubnet room2 ∧ ID room1 ≠ ID room2.
Proof.
  intros Hnum H1 H2 Hne.
  destruct (Hnum _ _ H1) as (n1 & _ & -> & Hrec1).
  destruct (Hnum _ _ H2) as (n2 & _ & -> & Hrec2).
  destruct (Hrec1 _ eq_refl) as (Hi1 & Hs1), (Hrec2 _ eq_refl) as (Hi2 & Hs2).
  rewrite Hs1, Hs2, Hi1, Hi2. split; [|done].
  intros Heq. apply roomSubnet_inj in Heq. by subst.
Qed.

(** *** Negotiation and keepalive *)

(** X23.  No session is asked for.  A tunnel offer that names a
    transport, for a room ID that is a key of the room map, is answered 200
    with the offered transport and cipher suite as they were sent, whatever
    they are, aes-256-gcm when no cipher suite was offered, and the
    ephemeral key of the offer; this also holds when the room under the key
    is nil.  An offer that names no transport is answered with the room's
    preferred transport, and panics when the room is nil.  A room ID that is
    no key gives 404. *)
Theorem handleTunnelBootstrap_negotiates req s w :
  let cipher := if decide (to_CipherSuite req = "")
                then "aes-256-gcm" else to_CipherSuite req in
  let accepted transport :=
    Wrote {| a_Status := StatusOK;
             a_Payload := ReplyJSON {| ta_Transport := transport; ta_CipherSuite := cipher;
                                       ta_EphemeralKey := to_EphemeralKey req |} |} in
  answer (handleTunnelBootstrap (post req) s w)
  = match rooms s !! to_RoomID req with
    | None => Wrote {| a_Status := StatusNotFound;
                       a_Payload := ReplyError "room not found" |}
    | Some ptr =>
        if decide (to_Transport req = "") then
          match ptr with
          | Some room => accepted (PreferredTransport room)
          | None => Panic Go.nilDereference
          end
        else accepted (to_Transport req)
    end.
Proof.
  unfold answer, handleTunnelBootstrap, writeReply. handler.
  destruct (rooms s !! to_RoomID req) as [[room|]|]; [| |done];
    by case_decide.
Qed.

(** X24.  The keepalive and the tunnel routes only read: whatever the
    request, the server and the files are as before and [persistLocked] is
    not called; the keepalive route writes one response, the tunnel route
    writes one response or, when it panics, none; and a keepalive that
    decodes is answered 200 with its sequence number, the server's clock and
    the delay 5000, whatever the server holds. *)
Theorem read_only_routes now (rk : Request Keepalive) (rt : Request TunnelOffer)
    (req : Keepalive) s w :
  (serverAfter (handleKeepalive now rk s w) = s
   ∧ disk (worldAfter (handleKeepalive now rk s w)) = disk w
   ∧ trace (worldAfter (handleKeepalive now rk s w))
     = (trace w ++ [WroteResponse (a_Status (answer (handleKeepalive now rk s w)))])%list)
  ∧ (serverAfter (handleTunnelBootstrap rt s w) = s
     ∧ disk (worldAfter (handleTunnelBootstrap rt s w)) = disk w
     ∧ trace (worldAfter (handleTunnelBootstrap rt s w))
       = match answer (handleTunnelBootstrap rt s w) with
         | Wrote a => (trace w ++ [WroteResponse (a_Status a)])%list
         | Panic _ => trace w
         end)
  ∧ answer (handleKeepalive now (post req) s w)
    = {| a_Status := StatusOK;
         a_Payload := ReplyJSON {| kk_Sequence := ka_Sequence req;
                                   kk_ServerTimeUnix := now;
                                   kk_RecommendedDelay := 5000 |} |}.
Proof.
  unfold answer, serverAfter, worldAfter, handleKeepalive, handleTunnelBootstrap, writeReply.
  handler. split_and!; repeat (case_decide || case_match); simplify_eq/=; done.
Qed.

(** *** Tokens *)

Lemma N_of_byte (n : N) : (n < 256)%N → N_of_ascii (Go.byte n) = n.
Proof. intros H. unfold Go.byte. by apply N_ascii_embedding. Qed.

Lemma N_of_ascii_lt (c : ascii) : (N_of_ascii c < 256)%N.
Proof. apply N_ascii_bounded. Qed.

Lemma hexDigit_value (d : N) :
  (d < 16)%N →
  N_of_ascii (Go.hexDigit d) = (if (d <? 10)%N then 48 + d else 87 + d)%N.
Proof.
  intros H. unfold Go.hexDigit. destruct (d <? 10)%N eqn:E; apply N_of_byte; lia.
Qed.

Lemma hexDigit_inj (a b : N) :
  (a < 16)%N → (b < 16)%N → Go.hexDigit a = Go.hexDigit b → a = b.
Proof.
  intros Ha Hb H. apply (f_equal N_of_ascii) in H.
  rewrite !hexDigit_value in H by done.
  destruct (a <? 10)%N eqn:Ea, (b <? 10)%N eqn:Eb;
    rewrite ?N.ltb_lt, ?N.ltb_ge in *; lia.
Qed.

Lemma hexDigit_isHex (d : N) : (d < 16)%N → isHexDigit (Go.hexDigit d) = true.
Proof.
  intros H. unfold isHexDigit. rewrite hexDigit_value by done.
  destruct (d <? 10)%N eqn:E; rewrite ?N.ltb_lt, ?N.ltb_ge in *.
  - apply orb_true_iff. left. apply andb_true_iff. rewrite !N.leb_le. lia.
  - apply orb_true_iff. right. apply andb_true_iff. rewrite !N.leb_le. lia.
Qed.

Lemma hexEncode_length (b : string) :
  String.length (Go.hexEncode b) = (2 * String.length b)%nat.
Proof. induction b as [|c b IH]; simpl; [done|]. rewrite IH. lia. Qed.

Lemma hexEncode_digits (b : string) :
  forallb isHexDigit (list_ascii_of_string (Go.hexEncode b)) = true.
Proof.
  induction b as [|c b IH]; simpl; [done|].
  pose proof (N_of_ascii_lt c).
  rewrite !hexDigit_isHex; [done| |].
  - apply N.mod_lt. lia.
  - apply N.Div0.div_lt_upper_bound. lia.
Qed.

(** [hex.EncodeToString] loses nothing: different bytes give different
    texts. *)
Lemma hexEncode_inj (a b : string) : Go.hexEncode a = Go.hexEncode b → a = b.
Proof.
  revert b. induction a as [|x a IH]; intros [|y b] H; simpl in H; try done.
  injection H as Hhi Hlo Hrest. f_equal; [|by apply IH].
  pose proof (N_of_ascii_lt x). pose proof (N_of_ascii_lt y).
  apply hexDigit_inj in Hhi; [|apply N.Div0.div_lt_upper_bound; lia..].
  apply hexDigit_inj in Hlo; [|apply N.mod_lt; lia..].
  rewrite <- (ascii_N_embedding x), <- (ascii_N_embedding y). f_equal.
  rewrite (N.div_mod (N_of_ascii x) 16), (N.div_mod (N_of_ascii y) 16) by lia.
  by rewrite Hhi, Hlo.
Qed.

Lemma randRead_length n s w : String.length (answer (randRead n s w)) = n.
Proof.
  unfold answer, randRead. simpl.
  generalize (drawn w). induction n as [|n IH]; intros d; simpl; [done|].
  by rewrite IH.
Qed.

Lemma newToken_eq s w :
  newToken s w
  = (Go.hexEncode (answer (randRead 16 s w)), s, worldAfter (randRead 16 s w)).
Proof. reflexivity. Qed.

(** X25.  [newToken] hands out 32 hexadecimal digits (0-9, a-f), takes 16
    random bytes and leaves the server alone; so the device identifier
    [handleRegister] generates from its first 6 digits has 6 digits. *)
Theorem newToken_format s w :
  String.length (answer (newToken s w)) = 32%nat
  ∧ forallb isHexDigit (list_ascii_of_string (answer (newToken s w))) = true
  ∧ String.length (Go.sliceTo 6 (answer (newToken s w))) = 6%nat
  ∧ serverAfter (newToken s w) = s
  ∧ drawn (worldAfter (newToken s w)) = (drawn w + 16)%nat.
Proof.
  rewrite newToken_eq.
  pose proof (randRead_length 16 s w) as Hr.
  set (b := answer (randRead 16 s w)) in *.
  change (answer (Go.hexEncode b, s, worldAfter (randRead 16 s w))) with (Go.hexEncode b).
  assert (Hl : String.length (Go.hexEncode b) = 32%nat).
  { rewrite hexEncode_length, Hr. done. }
  split; [done|]. split_and!.
  - apply hexEncode_digits.
  - destruct (Go.hexEncode b) as [|c1 [|c2 [|c3 [|c4 [|c5 [|c6 t]]]]]];
      simpl in Hl; try lia. by destruct t.
  - done.
  - done.
Qed.

(** X26.  Two tokens are equal only if the 16 random bytes behind them
    are: [newToken] adds no collisions of its own. *)
Theorem newToken_collision s w s2 w2 :
  answer (newToken s w) = answer (newToken s2 w2) →
  answer (randRead 16 s w) = answer (randRead 16 s2 w2).
Proof.
  rewrite !newToken_eq.
  change (answer (Go.hexEncode ?b, _, _)) with (Go.hexEncode b).
  apply hexEncode_inj.
Qed.

(** X27.  The device token of a login refreshes: after a login that
    answered 200, a refresh with its device token answers 200 with a new
    session token that resolves to the user who logged in. *)
Theorem login_then_refresh req s w lr s1 w1 w2 :
  handleLogin (post req) s w
    = ({| Status := StatusOK; Payload := LoginBody lr |}, s1, w1) →
  ∃ sessionToken s2 w3,
    handleRefresh (post {| fq_DeviceToken := lr_DeviceToken lr |}) s1 w2
      = ({| Status := StatusOK;
            Payload := RefreshBody {| fr_SessionToken := sessionToken |} |}, s2, w3)
    ∧ sessions s2 !! sessionToken = Some (lq_Username req).
Proof.
  intros H.
  apply handleLogin_cases in H
    as [(_ & _ & _ & [(? & Hb)|Hb] & _)
       |(req' & stok & dtok & ? & ? & err & _ & Hdec & _ & -> & _ & _ & _ & _ & _ & Hr)];
    [done..|].
  simpl in Hdec. injection Hdec as <-. destruct err; [done|]. injection Hr as ->.
  edestruct (handleRefresh_accepts (loginUser s (lq_Username req) stok dtok) w2 dtok)
    as (sessionToken & w3 & Href).
  { simpl. apply lookup_insert_eq. }
  eexists _, _, _. split; [exact Href|]. simpl. apply lookup_insert_eq.
Qed.

(** X28.  Sessions do not outlive the process: on a server that
    [NewServerWithStorage] has just built, whatever file it loaded, a join
    with any session token is answered 401. *)
Theorem restart_invalidates_sessions path w s w' req w2 :
  NewServerWithStorage path w = (inr s, w') →
  answer (handleJoinRoom (post req) s w2)
  = Wrote {| Status := StatusUnauthorized; Payload := ErrorBody "session invalid" |}
  ∧ serverAfter (handleJoinRoom (post req) s w2) = s.
Proof.
  intros H. apply NewServerWithStorage_post in H as (_ & Hs & _).
  unfold answer, serverAfter, handleJoinRoom. handler. rewrite Hs, lookup_empty. done.
Qed.

(** *** Transport and cipher names *)

Lemma equalFoldASCII_lower (a b : string) :
  equalFoldASCII a b = true ↔ lowerBytes a = lowerBytes b.
Proof.
  revert b. induction a as [|x a IH]; intros [|y b]; simpl; try done.
  rewrite andb_true_iff, IH, Ascii.eqb_eq. split.
  - by intros [-> ->].
  - by intros [= -> ->].
Qed.

(** X29.  For a name of ASCII bytes, [NormalizeTransport] gives [udp] for
    [udp] in any letter case, [tcp] for [tcp] in any letter case, and the
    empty transport for everything else; and normalising twice is
    normalising once, for every name. *)
Theorem NormalizeTransport_fold (mapToLower : string → string) (t : Transport) :
  (isASCII t = true →
     NormalizeTransport mapToLower t
     = (if equalFoldASCII t "udp" then TransportUDP
        else if equalFoldASCII t "tcp" then TransportTCP else ""))
  ∧ NormalizeTransport mapToLower (NormalizeTransport mapToLower t)
    = NormalizeTransport mapToLower t.
Proof.
  split.
  - intros Ha. unfold NormalizeTransport, ToLower. rewrite Ha.
    destruct (equalFoldASCII t "udp") eqn:Eu.
    { apply equalFoldASCII_lower in Eu. rewrite Eu. done. }
    destruct (equalFoldASCII t "tcp") eqn:Et.
    { apply equalFoldASCII_lower in Et. rewrite Et. done. }
    case_decide as Hu.
    { assert (equalFoldASCII t "udp" = true) by (by apply equalFoldASCII_lower).
      congruence. }
    case_decide as Ht; [|done].
    assert (equalFoldASCII t "tcp" = true) by (by apply equalFoldASCII_lower).
    congruence.
  - unfold NormalizeTransport at 2 3. repeat case_decide; reflexivity.
Qed.

(** X30.  [ValidateCipherSuite] does the same for the two cipher suites. *)
Theorem ValidateCipherSuite_fold (mapToLower : string → string) (c : CipherSuite) :
  (isASCII c = true →
     ValidateCipherSuite mapToLower c
     = (if equalFoldASCII c "aes-256-gcm" then CipherSuiteAES256GCM
        else if equalFoldASCII c "chacha20-poly1305" then CipherSuiteChaCha20Poly1305
        else ""))
  ∧ ValidateCipherSuite mapToLower (ValidateCipherSuite mapToLower c)
    = ValidateCipherSuite mapToLower c.
Proof.
  split.
  - intros Ha. unfold ValidateCipherSuite, ToLower. rewrite Ha.
    destruct (equalFoldASCII c "aes-256-gcm") eqn:Eu.
    { apply equalFoldASCII_lower in Eu. rewrite Eu. done. }
    destruct (equalFoldASCII c "chacha20-poly1305") eqn:Et.
    { apply equalFoldASCII_lower in Et. rewrite Et. done. }
    case_decide as Hu.
    { assert (equalFoldASCII c "aes-256-gcm" = true) by (by apply equalFoldASCII_lower).
      congruence. }
    case_decide as Ht; [|done].
    assert (equalFoldASCII c "chacha20-poly1305" = true)
      by (by apply equalFoldASCII_lower).
    congruence.
  - unfold ValidateCipherSuite at 2 3. repeat case_decide; reflexivity.
Qed.

(** *** The route of the admin role *)

(** C3, the code on the route of the operation.  [registerRoutes] gives the
    mux no pattern for [/admin/role]: a request for that path, whatever its
    method, its body and the session it carries, is answered by the mux
    itself with 404 ([http.NotFound]); no handler of the server runs, and the
    server and the files stay as they are. *)
Theorem adminRole_not_routed (cleanPath : string → string) now r s w :
  h_Path r = "/admin/role" → h_RequestURI r ≠ "*" →
  cleanPath "/admin/role" = "/admin/role" →
  muxHandler "/admin/role" = None
  ∧ ∃ w', muxServeHTTP cleanPath now r s w = (MuxNotFound, s, w')
          ∧ disk w' = disk w
          ∧ trace w' = (trace w ++ [WroteResponse StatusNotFound])%list.
Proof.
  intros Hpath Huri Hclean. split; [reflexivity|].
  unfold muxServeHTTP. rewrite Hpath, Hclean.
  case_decide; [done|]. case_decide as Hc; [by destruct Hc|].
  change (muxHandler "/admin/role") with (@None Handler). mrun. by eexists.
Qed.

End Properties.

(** ** The server as it is, on the tests of the admin role *)

(** C1, the code at the input of [TestNonAdminCannotCreateRoom].  On the
    server [NewServer()] builds, user [member] registers and holds a
    session; a POST to [/rooms] then answers 200 and stores [room-1], and so
    does a POST to [/rooms] on the new server, where no session exists at
    all: [handleCreateRoom] reads neither a session token nor a user. *)
Theorem createRoom_asks_no_session :
  let s0 := (demoServer memPlatform).1 in
  let w0 := (demoServer memPlatform).2 in
  let r1 := handleRegister
              (post {| rq_Username := "member"; rq_Password := "pw"; rq_DeviceID := "" |})
              s0 w0 in
  let restricted := post {| cq_Name := "restricted"; cq_PreferredTransport := "";
                            cq_MTU := 0 |} in
  let r2 := handleCreateRoom restricted (serverAfter r1) (worldAfter r1) in
  let r3 := handleCreateRoom restricted s0 w0 in
  let room1 := {| ID := "room-1"; Name := "restricted"; PreferredTransport := "udp";
                  MTU := 1400; OverlaySubnet := "10.0.1.0/24"; KeepaliveInterval := 15;
                  Members := Some ∅ |} in
  sessions (serverAfter r1) !! "202122232425262728292a2b2c2d2e2f" = Some "member"
  ∧ rooms (serverAfter r1) !! "room-1" = None
  ∧ Status (answer r2) = StatusOK
  ∧ failure_of_status (Status (answer r2)) = None
  ∧ rooms (serverAfter r2) !! "room-1" = Some (Some room1)
  ∧ size (sessions s0) = 0%nat
  ∧ Status (answer r3) = StatusOK
  ∧ rooms (serverAfter r3) !! "room-1" = Some (Some room1).
Proof. vm_compute. split_and!; reflexivity. Qed.

(** ** The server on a state file without a member map *)

(** C5, the code on a state file whose room has no member map.  The server
    starts on the file and adopts it; [nova] logs in, and the state, one
    user and one room, is saved to the path.  Started again on the path, the
    server has the same users, device bindings and rooms, and [nova] logs in
    with the original password; the join of [room-1] by its ID then panics
    at the write to the nil member map: no response is written, the overlay
    subnet is not returned, and the server is left as it was. *)
Theorem join_after_restart_panics :
  (NewServerWithStorage statePath
     (worldWith memPlatform {[ statePath := legacyFile ]})).1 = inr legacyServer.1
  ∧ snapshot legacyServer.1 = legacyFile
  ∧ Status (answer legacyLoginRun) = StatusOK
  ∧ disk (worldAfter legacyLoginRun) !! statePath
    = Some (snapshot (serverAfter legacyLoginRun))
  ∧ (NewServerWithStorage statePath (worldAfter legacyLoginRun)).1 = inr restartedServer.1
  ∧ snapshot restartedServer.1 = snapshot (serverAfter legacyLoginRun)
  ∧ size (users restartedServer.1) = 1%nat ∧ size (rooms restartedServer.1) = 1%nat
  ∧ rooms restartedServer.1 !! "room-1" = Some (Some legacyRoom)
  ∧ answer restartedLoginRun
    = {| Status := StatusOK;
         Payload := LoginBody
           {| lr_SessionToken := "202122232425262728292a2b2c2d2e2f";
              lr_DeviceToken := "303132333435363738393a3b3c3d3e3f" |} |}
  ∧ answer restartedJoinRun = Panic Go.nilMapWrite
  ∧ serverAfter restartedJoinRun = serverAfter restartedLoginRun
  ∧ trace (worldAfter restartedJoinRun) = trace (worldAfter restartedLoginRun).
Proof. vm_compute. split_and!; reflexivity. Qed.

(** ** The theorems at concrete inputs *)

Lemma run_eta {P : Platform} {A} (r : A * Server * World P) :
  r = (answer r, serverAfter r, worldAfter r).
Proof. by destruct r as [[??]?]. Qed.

Lemma wrote_eta {P : Platform} {R} (m : M P R) s w :
  wrote m s w = (Wrote (answer (m s w)), serverAfter (m s w), worldAfter (m s w)).
Proof.
  unfold wrote, answer, serverAfter, worldAfter, mbind, M_bind, mret, M_ret.
  by destruct (m s w) as [[??]?].
Qed.

(** A join with a session that does not resolve, for a room that does not
    exist, on the server [NewServer()] builds. *)
Lemma joinRoom_missing_room_witness :
  let req := {| jq_RoomID := "room-9"; jq_DeviceID := "rig-device";
                jq_SessionToken := "expired" |} in
  rooms (demoServer memPlatform).1 !! jq_RoomID req = None
  ∧ ∃ msg w',
      handleJoinRoom (post req) (demoServer memPlatform).1 (demoServer memPlatform).2
        = (Wrote {| Status := StatusUnauthorized; Payload := ErrorBody msg |},
           (demoServer memPlatform).1, w')
      ∧ disk w' = disk (demoServer memPlatform).2.
Proof.
  intros req. split; [reflexivity|].
  exact (joinRoom_missing_room req (demoServer memPlatform).1 (demoServer memPlatform).2
           eq_refl).
Defined.

(** C4 as stated fails: with a session that does not resolve, the join of a
    room that does not exist answers 401 (Unauthorized), not 404. *)
Lemma joinRoom_missing_room_counterexample :
  let req := {| jq_RoomID := "room-9"; jq_DeviceID := "rig-device";
                jq_SessionToken := "expired" |} in
  let r := handleJoinRoom (post req) (demoServer memPlatform).1 (demoServer memPlatform).2 in
  rooms (demoServer memPlatform).1 !! jq_RoomID req = None
  ∧ sessions (demoServer memPlatform).1 !! jq_SessionToken req = None
  ∧ answer r = Wrote {| Status := StatusUnauthorized;
                        Payload := ErrorBody "session invalid" |}
  ∧ failure_of_status StatusUnauthorized ≠ Some NotFound.
Proof. vm_compute. split_and!; congruence. Qed.

(** C6 as stated fails for refresh: on a server with a state path,
    [handleRefresh] adds a session and answers 200, and [persistLocked] is
    not called; the state file does not exist afterwards. *)
Lemma ack_follows_persist_counterexample :
  let s0 := storedServer.1 in
  let r := handleRefresh (post {| fq_DeviceToken := "demo-device" |}) s0 storedServer.2 in
  persistPath s0 = statePath
  ∧ Status (answer r) = StatusOK
  ∧ sessions s0 !! "08090a0b0c0d0e0f1011121314151617" = None
  ∧ sessions (serverAfter r) !! "08090a0b0c0d0e0f1011121314151617" = Some "gamer"
  ∧ trace (worldAfter r) = [WroteResponse StatusOK]
  ∧ disk (worldAfter r) !! statePath = None.
Proof. vm_compute. split_and!; reflexivity. Qed.

(** [nova] registers on the server with a state path: the state is saved
    before the answer. *)
Lemma ack_follows_persist_witness :
  (Status (answer novaRun) = StatusOK)
  ∧ ∃ evs,
      trace (worldAfter novaRun)
      = (trace storedServer.2 ++ CallPersistLocked :: evs ++ [WroteResponse StatusOK])%list
      ∧ (∀ st, WroteResponse st ∉ evs)
      ∧ (persistPath (serverAfter novaRun) ≠ "" →
           CallSaveState (persistPath (serverAfter novaRun)) ∈ evs
           ∧ ∃ data, @jsonMarshalIndent memPlatform (snapshot (serverAfter novaRun)) = inr data
                     ∧ disk (worldAfter novaRun) !! persistPath (serverAfter novaRun)
                       = Some data).
Proof.
  split; [reflexivity|].
  exact (ack_follows_persist
           (AuthRegister (post {| rq_Username := "nova"; rq_Password := "warp123";
                                  rq_DeviceID := "rig-device" |}))
           storedServer.1 storedServer.2 _ _ _ (wrote_eta _ _ _) eq_refl).
Defined.

(** C7 as stated fails for white space other than the space character: a
    username with a tab in it is registered. *)
Lemma register_invalid_input_counterexample :
  let r := handleRegister
             (post {| rq_Username := tabbedName; rq_Password := "pw";
                      rq_DeviceID := "rig-device" |})
             (demoServer memPlatform).1 (demoServer memPlatform).2 in
  Go.asciiSpace (Go.byte 9) = true
  ∧ Go.Contains tabbedName (String (Go.byte 9) "") = true
  ∧ Status (answer r) = StatusOK
  ∧ failure_of_status (Status (answer r)) ≠ Some InvalidInput
  ∧ Username <$> users (serverAfter r) !! tabbedName = Some tabbedName
  ∧ sessions (serverAfter r) !! "101112131415161718191a1b1c1d1e1f" = Some tabbedName.
Proof. vm_compute. split_and!; congruence. Qed.

(** A username with a space in it is turned down. *)
Lemma register_invalid_input_witness :
  let req := {| rq_Username := "a b"; rq_Password := "pw"; rq_DeviceID := "rig-device" |} in
  (blank (rq_Username req) ∨ blank (rq_Password req)
   ∨ Go.Contains (rq_Username req) " " = true)
  ∧ ∃ msg w',
      handleRegister (post req) (demoServer memPlatform).1 (demoServer memPlatform).2
        = ({| Status := StatusBadRequest; Payload := ErrorBody msg |},
           (demoServer memPlatform).1, w')
      ∧ failure_of_status StatusBadRequest = Some InvalidInput
      ∧ disk w' = disk (demoServer memPlatform).2
      ∧ trace w' = (trace (demoServer memPlatform).2 ++ [WroteResponse StatusBadRequest])%list.
Proof.
  intros req. split; [right; right; reflexivity|].
  exact (register_invalid_input req (demoServer memPlatform).1 (demoServer memPlatform).2
           (or_intror (or_intror eq_refl))).
Defined.

(** C8 as stated fails when the second request has a blank password: the
    name [alice] is taken, and registering it again with the empty password
    answers 400 (InvalidInput), not 409 (Conflict). *)
Lemma register_twice_conflict_counterexample :
  let req2 := {| rq_Username := "alice"; rq_Password := ""; rq_DeviceID := "phone" |} in
  let r2 := handleRegister (post req2) (serverAfter aliceRun) (worldAfter aliceRun) in
  Status (answer aliceRun) = StatusOK
  ∧ Username <$> users (serverAfter aliceRun) !! rq_Username req2 = Some "alice"
  ∧ answer r2 = {| Status := StatusBadRequest;
                   Payload := ErrorBody "username and password required" |}
  ∧ failure_of_status (Status (answer r2)) = Some InvalidInput
  ∧ failure_of_status (Status (answer r2)) ≠ Some Conflict.
Proof. vm_compute. split_and!; congruence. Qed.

(** [alice] registers, and her name is then registered again with another
    password on another device. *)
Lemma register_twice_conflict_witness :
  let tokens := {| rr_SessionToken := "101112131415161718191a1b1c1d1e1f";
                   rr_DeviceToken := "202122232425262728292a2b2c2d2e2f" |} in
  let req2 := {| rq_Username := "alice"; rq_Password := "other"; rq_DeviceID := "phone" |} in
  let r2 := handleRegister (post req2) (serverAfter aliceRun) (worldAfter aliceRun) in
  aliceRun = ({| Status := StatusOK; Payload := RegisterBody tokens |},
              serverAfter aliceRun, worldAfter aliceRun)
  ∧ Status (answer r2) = StatusConflict
  ∧ failure_of_status (Status (answer r2)) = Some Conflict
  ∧ serverAfter r2 = serverAfter aliceRun
  ∧ disk (worldAfter r2) = disk (worldAfter aliceRun)
  ∧ trace (worldAfter r2)
    = (trace (worldAfter aliceRun) ++ [WroteResponse (Status (answer r2))])%list
  ∧ sessions (serverAfter r2) !! rr_SessionToken tokens = Some "alice"
  ∧ deviceBags (serverAfter r2) !! rr_DeviceToken tokens = Some "alice"
  ∧ ∃ record, users (serverAfter r2) !! "alice" = Some record
              ∧ Username record = "alice"
              ∧ Hash record = @hashPassword memPlatform "pw1" (Salt record).
Proof.
  intros tokens req2 r2.
  assert (H1 : aliceRun = ({| Status := StatusOK; Payload := RegisterBody tokens |},
                           serverAfter aliceRun, worldAfter aliceRun)) by reflexivity.
  split; [exact H1|].
  destruct (register_twice_conflict
              {| rq_Username := "alice"; rq_Password := "pw1"; rq_DeviceID := "shared-pc" |}
              (demoServer memPlatform).1 (demoServer memPlatform).2 req2
              (worldAfter aliceRun) (serverAfter aliceRun) (worldAfter aliceRun) tokens
              (answer r2) (serverAfter r2) (worldAfter r2) H1 eq_refl (run_eta r2))
    as (Hst & Hf & Hrest).
  split; [exact Hst|]. split; [exact Hf|]. exact Hrest.
Defined.



(** The request of [TestAdminCanGrantAndRevoke] for [/admin/role], after
    [gamer] logged in and [candidate] registered: 404 from the mux, and the
    server is as [candidate]'s registration left it. *)
Lemma adminRole_not_routed_witness :
  let s := serverAfter candidateRun in
  let w := worldAfter candidateRun in
  (h_Path grantRequest = "/admin/role" ∧ h_RequestURI grantRequest ≠ "*"
   ∧ sessions s !! "08090a0b0c0d0e0f1011121314151617" = Some "gamer"
   ∧ Username <$> users s !! "candidate" = Some "candidate")
  ∧ muxHandler "/admin/role" = None
  ∧ ∃ w', muxServeHTTP (λ path, path) 0 grantRequest s w = (MuxNotFound, s, w')
          ∧ disk w' = disk w
          ∧ trace w' = (trace w ++ [WroteResponse StatusNotFound])%list.
Proof.
  intros s w.
  assert (Huri : h_RequestURI grantRequest ≠ "*") by (by vm_compute).
  split; [split_and!; [reflexivity|exact Huri|vm_compute; reflexivity..]|].
  exact (adminRole_not_routed (P := memPlatform) (λ path, path) 0 grantRequest s w
           eq_refl Huri eq_refl).
Defined.

(** C10 as stated fails when two users register with the same device
    identifier: the identifier is re-bound to the second, and a refresh with
    it gives a session of the second user, not of the first. *)
Lemma device_identifier_refreshes_counterexample :
  let s2 := serverAfter bobRun in
  let r := handleRefresh (post {| fq_DeviceToken := "shared-pc" |}) s2 (worldAfter bobRun) in
  Status (answer aliceRun) = StatusOK ∧ Status (answer bobRun) = StatusOK
  ∧ Device <$> users s2 !! "alice" = Some "shared-pc"
  ∧ answer r = {| Status := StatusOK;
                  Payload := RefreshBody
                    {| fr_SessionToken := "58595a5b5c5d5e5f6061626364656667" |} |}
  ∧ sessions (serverAfter r) !! "58595a5b5c5d5e5f6061626364656667" = Some "bob"
  ∧ sessions (serverAfter r) !! "58595a5b5c5d5e5f6061626364656667" ≠ Some "alice".
Proof. vm_compute. split_and!; congruence. Qed.

(** Right after [seedDemoUser], a refresh with [demo-device] gives a
    session of [gamer]; and [alice]'s registration bound her device
    identifier and her device token to her. *)
Lemma device_identifier_refreshes_witness :
  let s0 := (demoServer memPlatform).1 in
  let gamer := {| Username := "gamer"; Salt := "AAECAwQFBgc=";
                  Hash := @hashPassword memPlatform "password123" "AAECAwQFBgc=";
                  Device := "demo-device" |} in
  (users s0 !! "gamer" = Some gamer ∧ deviceBags s0 !! Device gamer = Some "gamer")
  ∧ (∃ sessionToken s' w',
       handleRefresh (post {| fq_DeviceToken := "demo-device" |}) s0
         (demoServer memPlatform).2
         = ({| Status := StatusOK;
               Payload := RefreshBody {| fr_SessionToken := sessionToken |} |}, s', w')
       ∧ sessions s' !! sessionToken = Some "gamer")
  ∧ ∃ record, users (serverAfter aliceRun) !! "alice" = Some record
              ∧ ("shared-pc" ≠ "" → Device record = "shared-pc")
              ∧ deviceBags (serverAfter aliceRun) !! Device record = Some "alice"
              ∧ deviceBags (serverAfter aliceRun) !! "202122232425262728292a2b2c2d2e2f"
                = Some "alice".
Proof.
  intros s0 gamer.
  destruct (device_identifier_refreshes (P := memPlatform)) as (Hreg & _ & Href).
  split; [split; reflexivity|]. split.
  - exact (Href s0 (demoServer memPlatform).2 "gamer" gamer eq_refl eq_refl).
  - exact (Hreg {| rq_Username := "alice"; rq_Password := "pw1"; rq_DeviceID := "shared-pc" |}
             s0 (demoServer memPlatform).2
             {| rr_SessionToken := "101112131415161718191a1b1c1d1e1f";
                rr_DeviceToken := "202122232425262728292a2b2c2d2e2f" |}
             (serverAfter aliceRun) (worldAfter aliceRun) eq_refl).
Defined.

(** ** The further properties at concrete inputs *)

(** The rename fails: the old file is still there. *)
Lemma saveState_failure_keeps_file_witness :
  let w := failingWorld memPlatform {[ statePath := oldFile ]} 2 "cross-device link" in
  let r := saveState (P := memPlatform) statePath newFile (demoServer memPlatform).1 w in
  answer r = Some "move state into place: cross-device link"
  ∧ disk (worldAfter r) !! statePath = disk w !! statePath.
Proof.
  intros w r.
  assert (H : answer r = Some "move state into place: cross-device link")
    by (vm_compute; reflexivity).
  split; [exact H|].
  exact (saveState_failure_keeps_file statePath newFile (demoServer memPlatform).1 w _ H).
Defined.

Lemma saveState_success_writes_witness :
  let w := failingWorld memPlatform {[ statePath := oldFile ]} 7 "unused" in
  let r := saveState (P := memPlatform) statePath newFile (demoServer memPlatform).1 w in
  answer r = None
  ∧ ∃ data, @jsonMarshalIndent memPlatform newFile = inr data
            ∧ disk (worldAfter r) = <[statePath := data]> (delete (statePath ++ ".tmp") (disk w))
            ∧ disk (worldAfter r) !! statePath = Some data
            ∧ disk (worldAfter r) !! (statePath ++ ".tmp") = None.
Proof.
  intros w r.
  assert (H : answer r = None) by (vm_compute; reflexivity).
  split; [exact H|].
  exact (saveState_success_writes statePath newFile (demoServer memPlatform).1 w H).
Defined.

Lemma saveState_loadState_witness :
  let w := quietWorld memPlatform in
  let r := saveState (P := memPlatform) statePath newFile (demoServer memPlatform).1 w in
  answer (loadState statePath storedServer.1 (worldAfter r)) = (newFile, None).
Proof.
  intros w r.
  apply (saveState_loadState (P := memPlatform) statePath newFile
           (demoServer memPlatform).1 w storedServer.1 (worldAfter r)).
  - vm_compute. reflexivity.
  - by exists newFile.
  - reflexivity.
  - vm_compute. reflexivity.
Defined.

(** A state file that does not decode. *)
Lemma NewServerWithStorage_refuses_witness :
  let w := failingWorld strictPlatform {[ statePath := None ]} 9 "unused" in
  statePath ≠ ""
  ∧ answer' (NewServerWithStorage statePath w)
    = inl "decode state: unexpected end of JSON input".
Proof.
  intros w.
  assert (Hp : statePath ≠ "") by (by vm_compute).
  split; [exact Hp|].
  destruct (NewServerWithStorage_refuses (P := strictPlatform) statePath w Hp)
    as (_ & Hdecode & _).
  apply (Hdecode None "unexpected end of JSON input").
  - vm_compute. reflexivity.
  - vm_compute. reflexivity.
  - reflexivity.
Defined.

Lemma NewServerWithStorage_fresh_witness :
  ∃ salt w',
    NewServerWithStorage statePath (quietWorld memPlatform)
      = (inr (seeded (P := memPlatform) statePath salt), w')
    ∧ credential (P := memPlatform) (seeded (P := memPlatform) statePath salt)
        "gamer" "password123"
    ∧ disk w' = disk (quietWorld memPlatform)
    ∧ trace w' = trace (quietWorld memPlatform).
Proof.
  apply (NewServerWithStorage_fresh (P := memPlatform) statePath (quietWorld memPlatform)).
  right. split; vm_compute; reflexivity.
Defined.

Lemma NewServerWithStorage_no_users_drops_file_witness :
  let w := failingWorld memPlatform {[ statePath := roomsOnlyFile ]} 9 "unused" in
  ∃ salt w',
    NewServerWithStorage statePath w = (inr (seeded (P := memPlatform) statePath salt), w').
Proof.
  intros w.
  apply (NewServerWithStorage_no_users_drops_file (P := memPlatform) statePath w
           roomsOnlyFile roomsOnlyFile).
  - by vm_compute.
  - vm_compute. reflexivity.
  - vm_compute. reflexivity.
  - reflexivity.
  - reflexivity.
Defined.

Lemma ServeHTTP_method_not_allowed_witness :
  ∃ w', ServeHTTP getRooms (demoServer memPlatform).1 (demoServer memPlatform).2
        = (Wrote {| Status := StatusMethodNotAllowed; Payload := NoBody |},
           (demoServer memPlatform).1, w')
        ∧ disk w' = disk (demoServer memPlatform).2
        ∧ trace w' = (trace (demoServer memPlatform).2
                        ++ [WroteResponse StatusMethodNotAllowed])%list.
Proof.
  apply (ServeHTTP_method_not_allowed (P := memPlatform) getRooms).
  by vm_compute.
Defined.

Lemma ServeHTTP_bad_body_witness :
  ∃ w', ServeHTTP brokenJoin (demoServer memPlatform).1 (demoServer memPlatform).2
        = (Wrote {| Status := StatusBadRequest;
                    Payload := ErrorBody "unexpected end of JSON input" |},
           (demoServer memPlatform).1, w')
        ∧ disk w' = disk (demoServer memPlatform).2
        ∧ trace w' = (trace (demoServer memPlatform).2
                        ++ [WroteResponse StatusBadRequest])%list.
Proof.
  apply (ServeHTTP_bad_body (P := memPlatform) brokenJoin); reflexivity.
Defined.

Lemma ServeHTTP_refusal_changes_nothing_witness :
  Status (answer wrongLoginRun) = StatusUnauthorized
  ∧ serverAfter wrongLoginRun = (demoServer memPlatform).1
  ∧ disk (worldAfter wrongLoginRun) = disk (demoServer memPlatform).2
  ∧ trace (worldAfter wrongLoginRun)
    = (trace (demoServer memPlatform).2 ++ [WroteResponse (Status (answer wrongLoginRun))])%list
  ∧ ((∃ msg, Payload (answer wrongLoginRun) = ErrorBody msg)
     ∨ Payload (answer wrongLoginRun) = NoBody).
Proof.
  split; [vm_compute; reflexivity|].
  apply (ServeHTTP_refusal_changes_nothing (P := memPlatform) (AuthLogin wrongLogin)
           (demoServer memPlatform).1 (demoServer memPlatform).2).
  - apply (wrote_eta (handleLogin wrongLogin)).
  - by vm_compute.
  - by vm_compute.
Defined.

Lemma ServeHTTP_statuses_witness :
  Status (answer wrongLoginRun)
    ∈ [StatusOK; StatusBadRequest; StatusUnauthorized; StatusNotFound;
       StatusMethodNotAllowed; StatusConflict; StatusInternalServerError]
  ∧ Status (answer wrongLoginRun) ≠ StatusForbidden.
Proof.
  apply (ServeHTTP_statuses (P := memPlatform) (AuthLogin wrongLogin)
           (demoServer memPlatform).1 (demoServer memPlatform).2 _
           (serverAfter wrongLoginRun) (worldAfter wrongLoginRun)).
  apply (wrote_eta (handleLogin wrongLogin)).
Defined.

Lemma ServeHTTP_in_memory_witness :
  persistPath (demoServer memPlatform).1 = ""
  ∧ disk (worldAfter coopRun) = disk (demoServer memPlatform).2
  ∧ Status (answer coopRun) ≠ StatusInternalServerError
  ∧ persistPath (serverAfter coopRun) = "".
Proof.
  assert (Hp : persistPath (demoServer memPlatform).1 = "") by (vm_compute; reflexivity).
  split; [exact Hp|].
  destruct (ServeHTTP_in_memory (P := memPlatform)
              (Rooms_ (post {| cq_Name := "coop"; cq_PreferredTransport := "udp";
                               cq_MTU := 1350 |}))
              (demoServer memPlatform).1 (demoServer memPlatform).2 _ _ _ Hp
              (wrote_eta _ _ _)) as (Hd & Hs & Hpath).
  split; [exact Hd|]. split; [exact (Hs _ eq_refl)|exact Hpath].
Defined.

Lemma handleLogin_rejects_witness :
  ∃ w', handleLogin wrongLogin (demoServer memPlatform).1 (demoServer memPlatform).2
        = ({| Status := StatusUnauthorized; Payload := ErrorBody "invalid credentials" |},
           (demoServer memPlatform).1, w')
        ∧ disk w' = disk (demoServer memPlatform).2
        ∧ trace w' = (trace (demoServer memPlatform).2
                        ++ [WroteResponse StatusUnauthorized])%list.
Proof.
  apply (handleLogin_rejects (P := memPlatform)
           {| lq_Username := "gamer"; lq_Password := "letmein" |}).
  intros (record & Hu & Hh). vm_compute in Hu. injection Hu as <-.
  vm_compute in Hh. discriminate Hh.
Defined.

Lemma register_then_login_witness :
  Status (answer aliceRun) = StatusOK
  ∧ ∃ lr s2 w3,
      handleLogin (post {| lq_Username := "alice"; lq_Password := "pw1" |})
        (serverAfter aliceRun) (worldAfter aliceRun)
        = ({| Status := StatusOK; Payload := LoginBody lr |}, s2, w3)
      ∧ sessions s2 !! lr_SessionToken lr = Some "alice"
      ∧ deviceBags s2 !! lr_DeviceToken lr = Some "alice".
Proof.
  assert (Hok : Status (answer aliceRun) = StatusOK) by (vm_compute; reflexivity).
  split; [exact Hok|].
  apply (register_then_login (P := memPlatform)
           {| rq_Username := "alice"; rq_Password := "pw1"; rq_DeviceID := "shared-pc" |}
           (demoServer memPlatform).1 (demoServer memPlatform).2 _ _ _ _
           (run_eta aliceRun) Hok).
  - intros n. reflexivity.
  - intros st. by exists st.
Defined.

Lemma ServeHTTP_keeps_witness :
  users (demoServer memPlatform).1 ⊆ users (serverAfter aliceRun)
  ∧ dom (sessions (demoServer memPlatform).1) ⊆ dom (sessions (serverAfter aliceRun))
  ∧ dom (deviceBags (demoServer memPlatform).1) ⊆ dom (deviceBags (serverAfter aliceRun))
  ∧ dom (rooms (demoServer memPlatform).1) ⊆ dom (rooms (serverAfter aliceRun))
  ∧ persistPath (serverAfter aliceRun) = persistPath (demoServer memPlatform).1.
Proof.
  apply (ServeHTTP_keeps (P := memPlatform)
           (AuthRegister (post {| rq_Username := "alice"; rq_Password := "pw1";
                                  rq_DeviceID := "shared-pc" |}))
           (demoServer memPlatform).1 (demoServer memPlatform).2 _ _ _ (wrote_eta _ _ _)).
Defined.

(** The disk is full when [nova] registers: 500, and [nova] is registered. *)
Lemma register_failed_save_not_rolled_back_witness :
  Status (answer fullDiskRun) = StatusInternalServerError
  ∧ users storedServer.1 !! "nova" = None
  ∧ credential (P := memPlatform) (serverAfter fullDiskRun) "nova" "warp123"
  ∧ ∀ w2 : World memPlatform,
      Status (answer (handleRegister (post novaRequest) (serverAfter fullDiskRun) w2))
          = StatusConflict.
Proof.
  assert (H : Status (answer fullDiskRun) = StatusInternalServerError)
    by (vm_compute; reflexivity).
  split; [exact H|].
  exact (register_failed_save_not_rolled_back (P := memPlatform) novaRequest storedServer.1
           (failingWorld memPlatform ∅ 0 "no space left on device") _ _ _
           (run_eta fullDiskRun) H).
Defined.

Lemma ServeHTTP_tokens_resolve_witness :
  tokens_resolve (demoServer memPlatform).1 ∧ tokens_resolve (serverAfter aliceRun).
Proof.
  assert (H0 : tokens_resolve (demoServer memPlatform).1).
  { assert (E : (demoServer memPlatform).1 = seeded (P := memPlatform) "" "AAECAwQFBgc=")
      by (vm_compute; reflexivity).
    rewrite E. apply seeded_tokens_resolve. }
  split; [exact H0|].
  exact (ServeHTTP_tokens_resolve (P := memPlatform)
           (AuthRegister (post {| rq_Username := "alice"; rq_Password := "pw1";
                                  rq_DeviceID := "shared-pc" |}))
           (demoServer memPlatform).1 (demoServer memPlatform).2 _ _ _ H0
           (wrote_eta _ _ _)).
Defined.

Lemma handleJoinRoom_effect_witness :
  let resp := {| Status := StatusOK;
                 Payload := JoinRoomBody
                   {| jr_VirtualIP := "10.0.1.2";
                      jr_SessionKey := "303132333435363738393a3b3c3d3e3f";
                      jr_Transport := "udp"; jr_KeepaliveIntervalSec := 15;
                      jr_OverlaySubnetReference := "10.0.1.0/24" |} |} in
  answer joinRun = Wrote resp
  ∧ ∃ username room members jr,
      sessions (serverAfter alphaRun) !! novaSession = Some username
      ∧ rooms (serverAfter alphaRun) !! "room-1" = Some (Some room)
      ∧ Members room = Some members
      ∧ rooms (serverAfter joinRun) !! "room-1"
        = Some (Some {| ID := ID room; Name := Name room;
                        PreferredTransport := PreferredTransport room; MTU := MTU room;
                        OverlaySubnet := OverlaySubnet room;
                        KeepaliveInterval := KeepaliveInterval room;
                        Members := Some (<["rig-device" := username]> members) |})
      ∧ (∀ k, k ≠ "room-1" → rooms (serverAfter joinRun) !! k
                               = rooms (serverAfter alphaRun) !! k)
      ∧ users (serverAfter joinRun) = users (serverAfter alphaRun)
      ∧ sessions (serverAfter joinRun) = sessions (serverAfter alphaRun)
      ∧ deviceBags (serverAfter joinRun) = deviceBags (serverAfter alphaRun)
      ∧ Payload resp = JoinRoomBody jr
      ∧ jr_VirtualIP jr = "10.0." ++ Go.itoa (Go.len members + 1) ++ "."
                            ++ Go.itoa (Go.len members + 2).
Proof.
  intros resp.
  assert (H : joinRun = (Wrote resp, serverAfter joinRun, worldAfter joinRun))
    by (vm_compute; reflexivity).
  split; [by rewrite H at 1|].
  exact (handleJoinRoom_effect (P := memPlatform)
           {| jq_RoomID := "room-1"; jq_DeviceID := "rig-device";
              jq_SessionToken := novaSession |}
           (serverAfter alphaRun) (worldAfter alphaRun) _ _ _ H eq_refl).
Defined.

(** [rig-device] joins a second time and is given 10.0.2.3; [laptop] joins
    next and is given 10.0.2.3 as well. *)
Lemma rejoin_repeats_virtual_ip_witness :
  let jr := {| jr_VirtualIP := "10.0.2.3"; jr_SessionKey := "404142434445464748494a4b4c4d4e4f";
               jr_Transport := "udp"; jr_KeepaliveIntervalSec := 15;
               jr_OverlaySubnetReference := "10.0.1.0/24" |} in
  let jr2 := {| jr_VirtualIP := "10.0.2.3"; jr_SessionKey := "505152535455565758595a5b5c5d5e5f";
                jr_Transport := "udp"; jr_KeepaliveIntervalSec := 15;
                jr_OverlaySubnetReference := "10.0.1.0/24" |} in
  (answer rejoinRun = Wrote {| Status := StatusOK; Payload := JoinRoomBody jr |}
   ∧ answer laptopRun = Wrote {| Status := StatusOK; Payload := JoinRoomBody jr2 |})
  ∧ jr_VirtualIP jr2 = jr_VirtualIP jr.
Proof.
  intros jr jr2.
  assert (H1 : rejoinRun = (Wrote {| Status := StatusOK; Payload := JoinRoomBody jr |},
                            serverAfter rejoinRun, worldAfter rejoinRun))
    by (vm_compute; reflexivity).
  assert (H2 : laptopRun = (Wrote {| Status := StatusOK; Payload := JoinRoomBody jr2 |},
                            serverAfter laptopRun, worldAfter laptopRun))
    by (vm_compute; reflexivity).
  split; [split; [by rewrite H1 at 1|by rewrite H2 at 1]|].
  apply (rejoin_repeats_virtual_ip (P := memPlatform)
           {| jq_RoomID := "room-1"; jq_DeviceID := "rig-device";
              jq_SessionToken := novaSession |}
           (serverAfter joinRun) (worldAfter joinRun)
           {| Status := StatusOK; Payload := JoinRoomBody jr |}
           (serverAfter rejoinRun) (worldAfter rejoinRun)
           {| jq_RoomID := "room-1"; jq_DeviceID := "laptop";
              jq_SessionToken := novaSession |}
           (worldAfter rejoinRun)
           {| Status := StatusOK; Payload := JoinRoomBody jr2 |}
           (serverAfter laptopRun) (worldAfter laptopRun)
           {| ID := "room-1"; Name := "alpha"; PreferredTransport := "udp"; MTU := 1400;
              OverlaySubnet := "10.0.1.0/24"; KeepaliveInterval := 15;
              Members := Some {[ "rig-device" := "nova" ]} |}
           {[ "rig-device" := "nova" ]}
           "nova" jr jr2).
  - vm_compute. reflexivity.
  - reflexivity.
  - vm_compute. reflexivity.
  - exact H1.
  - reflexivity.
  - reflexivity.
  - exact H2.
  - reflexivity.
Defined.

Lemma demoServer_rooms_numbered : rooms_numbered (demoServer memPlatform).1.
Proof.
  assert (E : (demoServer memPlatform).1 = seeded (P := memPlatform) "" "AAECAwQFBgc=")
    by (vm_compute; reflexivity).
  rewrite E. apply seeded_rooms_numbered.
Qed.

Lemma coopRun_rooms_numbered : rooms_numbered (serverAfter coopRun).
Proof.
  assert (E : serverAfter coopRun
              = setRooms <[ID (newRoom (demoServer memPlatform).1
                                 {| cq_Name := "coop"; cq_PreferredTransport := "udp";
                                    cq_MTU := 1350 |})
                           := Some (newRoom (demoServer memPlatform).1
                                      {| cq_Name := "coop"; cq_PreferredTransport := "udp";
                                         cq_MTU := 1350 |})]> (demoServer memPlatform).1)
    by (vm_compute; reflexivity).
  rewrite E. apply createRoom_keeps_numbered, demoServer_rooms_numbered.
Qed.

Lemma pvpRun_rooms_numbered : rooms_numbered (serverAfter pvpRun).
Proof.
  assert (E : serverAfter pvpRun
              = setRooms <[ID (newRoom (serverAfter coopRun)
                                 {| cq_Name := "pvp"; cq_PreferredTransport := "tcp";
                                    cq_MTU := 0 |})
                           := Some (newRoom (serverAfter coopRun)
                                      {| cq_Name := "pvp"; cq_PreferredTransport := "tcp";
                                         cq_MTU := 0 |})]> (serverAfter coopRun))
    by (vm_compute; reflexivity).
  rewrite E. apply createRoom_keeps_numbered, coopRun_rooms_numbered.
Qed.

Lemma createRoom_fresh_id_witness :
  let req := {| cq_Name := "pvp"; cq_PreferredTransport := "tcp"; cq_MTU := 0 |} in
  rooms (serverAfter coopRun) !! ID (newRoom (serverAfter coopRun) req) = None
  ∧ Go.len (rooms (serverAfter
                     (handleCreateRoom (post req) (serverAfter coopRun) (worldAfter coopRun))))
    = Go.len (rooms (serverAfter coopRun)) + 1.
Proof.
  intros req.
  exact (createRoom_fresh_id (P := memPlatform) req (serverAfter coopRun)
           (worldAfter coopRun) coopRun_rooms_numbered).
Defined.

Lemma ServeHTTP_rooms_numbered_witness : rooms_numbered (serverAfter joinRun).
Proof.
  assert (E : (storedServer).1 = seeded (P := memPlatform) statePath "AAECAwQFBgc=")
    by (vm_compute; reflexivity).
  assert (H0 : rooms_numbered storedServer.1).
  { rewrite E. apply seeded_rooms_numbered. }
  assert (H1 : rooms_numbered (serverAfter novaRun)).
  { intros k ptr Hk. apply (H0 k ptr). revert Hk.
    assert (Er : rooms (serverAfter novaRun) = rooms storedServer.1)
      by (vm_compute; reflexivity).
    by rewrite Er. }
  assert (H2 : rooms_numbered (serverAfter alphaRun)).
  { assert (E2 : serverAfter alphaRun
                 = setRooms <[ID (newRoom (serverAfter novaRun)
                                    {| cq_Name := "alpha"; cq_PreferredTransport := "";
                                       cq_MTU := 0 |})
                              := Some (newRoom (serverAfter novaRun)
                                         {| cq_Name := "alpha"; cq_PreferredTransport := "";
                                            cq_MTU := 0 |})]> (serverAfter novaRun))
      by (vm_compute; reflexivity).
    rewrite E2. by apply createRoom_keeps_numbered. }
  exact (ServeHTTP_rooms_numbered (P := memPlatform) (RoomsJoin (joinRequest "rig-device"))
           (serverAfter alphaRun) (worldAfter alphaRun) _ _ _ H2 (run_eta joinRun)).
Defined.

Lemma rooms_numbered_distinct_subnets_witness :
  let coop := {| ID := "room-1"; Name := "coop"; PreferredTransport := "udp"; MTU := 1350;
                 OverlaySubnet := "10.0.1.0/24"; KeepaliveInterval := 15;
                 Members := Some ∅ |} in
  let pvp := {| ID := "room-2"; Name := "pvp"; PreferredTransport := "tcp"; MTU := 1400;
                OverlaySubnet := "10.0.2.0/24"; KeepaliveInterval := 15;
                Members := Some ∅ |} in
  (rooms (serverAfter pvpRun) !! "room-1" = Some (Some coop)
   ∧ rooms (serverAfter pvpRun) !! "room-2" = Some (Some pvp))
  ∧ OverlaySubnet coop ≠ OverlaySubnet pvp ∧ ID coop ≠ ID pvp.
Proof.
  intros coop pvp.
  assert (H1 : rooms (serverAfter pvpRun) !! "room-1" = Some (Some coop))
    by (vm_compute; reflexivity).
  assert (H2 : rooms (serverAfter pvpRun) !! "room-2" = Some (Some pvp))
    by (vm_compute; reflexivity).
  split; [by split|].
  apply (rooms_numbered_distinct_subnets (serverAfter pvpRun) "room-1" "room-2" coop pvp
           pvpRun_rooms_numbered H1 H2).
  by vm_compute.
Defined.

(** Two draws from the same bytes give the same token. *)
Lemma newToken_collision_witness :
  answer (randRead 16 (demoServer memPlatform).1 (quietWorld memPlatform))
  = answer (randRead 16 storedServer.1 (quietWorld memPlatform)).
Proof.
  apply (newToken_collision (P := memPlatform)).
  vm_compute. reflexivity.
Defined.

Lemma login_then_refresh_witness :
  ∃ sessionToken s2 w3,
    handleRefresh (post {| fq_DeviceToken := "18191a1b1c1d1e1f2021222324252627" |})
      (serverAfter gamerLoginRun) (worldAfter gamerLoginRun)
      = ({| Status := StatusOK;
            Payload := RefreshBody {| fr_SessionToken := sessionToken |} |}, s2, w3)
    ∧ sessions s2 !! sessionToken = Some "gamer".
Proof.
  apply (login_then_refresh (P := memPlatform)
           {| lq_Username := "gamer"; lq_Password := "password123" |}
           (demoServer memPlatform).1 (demoServer memPlatform).2
           {| lr_SessionToken := "08090a0b0c0d0e0f1011121314151617";
              lr_DeviceToken := "18191a1b1c1d1e1f2021222324252627" |}
           (serverAfter gamerLoginRun) (worldAfter gamerLoginRun) (worldAfter gamerLoginRun)).
  vm_compute. reflexivity.
Defined.

(** The server is started again on the saved state of
    [TestRegisterPersistsState]; [nova]'s old session is refused. *)
Lemma restart_invalidates_sessions_witness :
  let r := NewServerWithStorage statePath (worldAfter savedRun) in
  let s := match r.1 with inr s => s | inl _ => storedServer.1 end in
  r = (inr s, r.2)
  ∧ answer (handleJoinRoom (joinRequest "rig-device") s r.2)
    = Wrote {| Status := StatusUnauthorized; Payload := ErrorBody "session invalid" |}
  ∧ serverAfter (handleJoinRoom (joinRequest "rig-device") s r.2) = s.
Proof.
  intros r s.
  assert (H : r = (inr s, r.2)) by (vm_compute; reflexivity).
  split; [exact H|].
  exact (restart_invalidates_sessions (P := memPlatform) statePath (worldAfter savedRun)
           s r.2 {| jq_RoomID := "room-1"; jq_DeviceID := "rig-device";
                    jq_SessionToken := novaSession |} r.2 H).
Defined.

(** No state file yet: [loadState] gives the empty state. *)
Lemma loadState_reads_only_witness :
  answer (loadState statePath (demoServer memPlatform).1 (quietWorld memPlatform))
  = ({| Users := ∅; DeviceBags := ∅; Rooms := ∅ |}, None).
Proof.
  destruct (loadState_reads_only (P := memPlatform) statePath
              (demoServer memPlatform).1 (quietWorld memPlatform)) as (_ & _ & H).
  apply H; vm_compute; reflexivity.
Defined.

(** [UDP] in capitals. *)
Lemma NormalizeTransport_fold_witness :
  NormalizeTransport (λ s, s) "UDP" = TransportUDP.
Proof.
  destruct (NormalizeTransport_fold (λ s, s) "UDP") as [H _].
  exact (H eq_refl).
Defined.

(** [ChaCha20-Poly1305] in mixed case. *)
Lemma ValidateCipherSuite_fold_witness :
  ValidateCipherSuite (λ s, s) "ChaCha20-Poly1305" = CipherSuiteChaCha20Poly1305.
Proof.
  destruct (ValidateCipherSuite_fold (λ s, s) "ChaCha20-Poly1305") as [H _].
  exact (H eq_refl).
Defined.
